(** * Account ledger, transfers and currency conversion

    A shallow embedding of the balance-posting primitive
    ([updateAccountBalance], lib/account-balance), the transfer handler
    ([handleTransfer], components/accounts/account-table.tsx), the manual
    balance correction ([handleBalanceUpdate], account detail view), the
    account form ([onSubmit], components/accounts/account-form.tsx) and the
    exchange-rate helpers ([fetchRates], [getExchangeRates], [convertAmount],
    lib/currency).

    Numbers.  A JavaScript number is modelled as an exact rational extended
    with [NaN], [+Infinity] and [-Infinity]: the operations of [Js] have no
    rounding error, no overflow and no signed zero.  Where binary64
    arithmetic gives another result than exact arithmetic, the module
    [Binary64] replays the line of the code on the floating-point numbers
    of the kernel, and statements about amounts are made for whole numbers
    of hundredths, on which the two agree over the range of the columns.

    Store.  The Supabase client is modelled as a database (its tables)
    together with a schedule of request outcomes: every request sent to the
    backend consumes one entry of the schedule, and an entry [true] makes
    that request come back with an error and without effect.  Successful
    writes are also recorded, in the order they are performed.  A table
    keeps the number it is given, which is what the columns of type
    [numeric(12,2)] do with a whole number of hundredths; the rounding they
    apply to any other value is outside this model, so statements about a
    stored balance that is not a whole number of hundredths are made about
    the value sent, not about the value kept. *)

From Stdlib Require Import ZArith QArith Qround Qabs Lia Lqa List String Bool
  Permutation Sorted.
From Stdlib Require PrimFloat FloatOps SpecFloat Uint63.
Import ListNotations.

Local Open Scope Q_scope.

(** ** JavaScript numbers *)

Module Js.

Inductive number : Type :=
| NaN
| PInf
| NInf
| Fin (q : Q).

(** Same numeric value (rationals are compared by [Qeq]). *)
Definition num_eq (a b : number) : Prop :=
  match a, b with
  | NaN, NaN => True
  | PInf, PInf => True
  | NInf, NInf => True
  | Fin p, Fin q => p == q
  | _, _ => False
  end.


(** [isNaN(a)] *)
Definition isNaN (a : number) : bool :=
  match a with NaN => true | _ => false end.

(** [a === b] on numbers: [NaN] is not equal to itself. *)
Definition strict_eq (a b : number) : bool :=
  match a, b with
  | PInf, PInf => true
  | NInf, NInf => true
  | Fin p, Fin q => Qeq_bool p q
  | _, _ => false
  end.

(** [a <= b]: every comparison with [NaN] is false. *)
Definition le (a b : number) : bool :=
  match a, b with
  | NaN, _ | _, NaN => false
  | NInf, _ => true
  | _, PInf => true
  | Fin p, Fin q => Qle_bool p q
  | PInf, _ => false
  | Fin _, NInf => false
  end.

(** Truthiness of a number: [0] and [NaN] are falsy. *)
Definition truthy (a : number) : bool :=
  match a with
  | NaN => false
  | Fin q => negb (Qeq_bool q 0)
  | _ => true
  end.

(** Unary minus. *)
Definition neg (a : number) : number :=
  match a with
  | NaN => NaN
  | PInf => NInf
  | NInf => PInf
  | Fin q => Fin (- q)
  end.

Definition add (a b : number) : number :=
  match a, b with
  | NaN, _ | _, NaN => NaN
  | PInf, NInf | NInf, PInf => NaN
  | PInf, _ | _, PInf => PInf
  | NInf, _ | _, NInf => NInf
  | Fin p, Fin q => Fin (p + q)
  end.

Definition sub (a b : number) : number := add a (neg b).

(** Sign bit of a number other than [NaN] (zero counts as positive). *)
Definition negative (a : number) : bool :=
  match a with
  | NInf => true
  | Fin q => negb (Qle_bool 0 q)
  | _ => false
  end.

Definition inf_of_sign (negative : bool) : number :=
  if negative then NInf else PInf.

Definition mul (a b : number) : number :=
  match a, b with
  | NaN, _ | _, NaN => NaN
  | Fin p, Fin q => Fin (p * q)
  | Fin p, _ =>
      if Qeq_bool p 0 then NaN else inf_of_sign (xorb (negative a) (negative b))
  | _, Fin q =>
      if Qeq_bool q 0 then NaN else inf_of_sign (xorb (negative a) (negative b))
  | _, _ => inf_of_sign (xorb (negative a) (negative b))
  end.

Definition div (a b : number) : number :=
  match a, b with
  | NaN, _ | _, NaN => NaN
  | Fin p, Fin q =>
      if Qeq_bool q 0
      then (if Qeq_bool p 0 then NaN else inf_of_sign (negative a))
      else Fin (p / q)
  | Fin _, _ => Fin 0
  | _, Fin _ => inf_of_sign (xorb (negative a) (negative b))
  | _, _ => NaN
  end.

(** [Math.round]: the closest integer, a tie going to the one closer to
    [+Infinity]. *)
Definition Math_round (a : number) : number :=
  match a with
  | Fin q => Fin (inject_Z (Qfloor (q + (1 # 2))))
  | _ => a
  end.

(** The literal of an integer and of a decimal with two places. *)
Definition int (z : Z) : number := Fin (inject_Z z).
Definition cents (z : Z) : number := Fin (z # 100).

End Js.

Export Js.

Declare Scope js_scope.
Delimit Scope js_scope with js.
Infix "+" := Js.add : js_scope.
Infix "-" := Js.sub : js_scope.
Infix "*" := Js.mul : js_scope.
Infix "/" := Js.div : js_scope.
Infix "=n=" := Js.num_eq (at level 70, no associativity).

(** The rounding idiom of the code: [Math.round(v * 100) / 100]. *)
Definition round2 (v : number) : number :=
  (Math_round (v * int 100) / int 100)%js.

(** What rounding to two decimal places half-up means: [r] is a whole
    number of hundredths, at most half a hundredth away from [v], and a
    value half-way between two hundredths goes to the upper one. *)
Definition rounds_half_up_2 (v r : Q) : Prop :=
  (exists k : Z, r == inject_Z k / 100) /\ r - (1 # 200) <= v /\ v < r + (1 # 200).

(** ** Strings as JavaScript values *)

(** Truthiness of a string: only the empty string is falsy. *)
Definition truthy_string (s : string) : bool :=
  negb (String.eqb s EmptyString).

(** [s || d] for an optional string argument. *)
Definition or_default (s : option string) (d : string) : string :=
  match s with
  | Some v => if truthy_string v then v else d
  | None => d
  end.

(** [s || null] *)
Definition or_null (s : string) : option string :=
  if truthy_string s then Some s else None.

(** ** Data model (lib/types.ts and the migrations) *)

Inductive AccountType : Type := bank_account | credit_card.
Inductive AccountStatus : Type := active | closed.

Definition AccountStatus_eqb (a b : AccountStatus) : bool :=
  match a, b with
  | active, active | closed, closed => true
  | _, _ => false
  end.

(** The fields of [Account] that the ledger code reads or writes. *)
Record Account : Type := mkAccount {
  id : string;
  user_id : string;
  account_name : string;
  account_type : AccountType;
  currency : string;
  current_balance : number;
  status : AccountStatus
}.

(** A row of [account_balance_history]; [balance_date = None] leaves the
    column to its default. *)
Record BalanceEntry : Type := mkBalanceEntry {
  account_id : string;
  entry_user_id : string;
  balance_date : option string;
  balance : number;
  note : option string
}.

(** A row of [account_transfers]. *)
Record Transfer : Type := mkTransfer {
  transfer_user_id : string;
  from_account_id : string;
  to_account_id : string;
  amount : number;
  transfer_currency : string;
  transfer_note : option string;
  transfer_date : string
}.

(** The fields of a row of [expenses] that the ledger code reads. *)
Record Expense : Type := mkExpense {
  expense_id : string;
  expense_user_id : string;
  expense_amount : number;
  category : string;
  expense_account_id : option string
}.

Definition with_balance (a : Account) (v : number) : Account :=
  {| id := id a; user_id := user_id a; account_name := account_name a;
     account_type := account_type a; currency := currency a;
     current_balance := v; status := status a |}.

(** ** The store *)

Record Database : Type := mkDatabase {
  accounts_tbl : list Account;
  history_tbl : list BalanceEntry;
  transfers_tbl : list Transfer;
  expenses_tbl : list Expense
}.

Definition with_accounts (d : Database) (rows : list Account) : Database :=
  {| accounts_tbl := rows; history_tbl := history_tbl d;
     transfers_tbl := transfers_tbl d; expenses_tbl := expenses_tbl d |}.

Definition with_history (d : Database) (rows : list BalanceEntry) : Database :=
  {| accounts_tbl := accounts_tbl d; history_tbl := rows;
     transfers_tbl := transfers_tbl d; expenses_tbl := expenses_tbl d |}.

Definition with_transfers (d : Database) (rows : list Transfer) : Database :=
  {| accounts_tbl := accounts_tbl d; history_tbl := history_tbl d;
     transfers_tbl := rows; expenses_tbl := expenses_tbl d |}.

Definition with_expenses (d : Database) (rows : list Expense) : Database :=
  {| accounts_tbl := accounts_tbl d; history_tbl := history_tbl d;
     transfers_tbl := transfers_tbl d; expenses_tbl := rows |}.

(** A write the backend has performed. *)
Inductive Write : Type :=
| UpdateBalance (accountId : string) (v : number)
| UpdateAccount (accountId : string) (row : Account)
| InsertAccount (row : Account)
| InsertHistory (rows : list BalanceEntry)
| InsertTransfer (row : Transfer)
| DeleteExpense (expenseId : string).

(** The client: the database, the outcomes of the coming requests
    ([true]: the request fails) and the writes performed so far. *)
Record Supabase : Type := mkSupabase {
  db : Database;
  outcomes : list bool;
  writes : list Write
}.

(** The [{ data, error }] a request resolves to. *)
Inductive Response (A : Type) : Type :=
| Data (a : A)
| Error.
Arguments Data {A} a.
Arguments Error {A}.

Definition is_error {A : Type} (r : Response A) : bool :=
  match r with Error => true | Data _ => false end.

(** Code that awaits requests, one after the other. *)
Definition Request (A : Type) : Type := Supabase -> A * Supabase.

Definition ret {A : Type} (a : A) : Request A := fun s => (a, s).

Definition bind {A B : Type} (m : Request A) (k : A -> Request B) : Request B :=
  fun s => let (a, s') := m s in k a s'.

Notation "x <- m ;; k" := (bind m (fun x => k))
  (at level 61, m at next level, right associativity).
Notation "m ;;; k" := (bind m (fun _ => k))
  (at level 61, right associativity).

(** Whether the [n]-th coming request fails; an exhausted schedule means
    success. *)
Definition fails_at (n : nat) (s : Supabase) : bool := nth n (outcomes s) false.

(** The client after a request that wrote nothing (it failed, or it only
    read), and after a request that left the database [d] and performed the
    write [w]. *)
Definition advance (s : Supabase) : Supabase :=
  {| db := db s; outcomes := List.tl (outcomes s); writes := writes s |}.

Definition done (s : Supabase) (d : Database) (w : Write) : Supabase :=
  {| db := d; outcomes := List.tl (outcomes s); writes := (writes s ++ [w])%list |}.

(** None of the [n] coming requests fails. *)
Definition no_failure (n : nat) (s : Supabase) : Prop :=
  forall i : nat, (i < n)%nat -> fails_at i s = false.

(** A request that reads: it takes the next outcome of the schedule and,
    unless that is a failure, answers from the database. *)
Definition query {A : Type} (read : Database -> Response A) : Request (Response A) :=
  fun s =>
    if fails_at 0 s then (Error, advance s) else (read (db s), advance s).

(** A request that writes: it takes the next outcome of the schedule and,
    unless that is a failure, applies [run] to the database, records [w]
    and answers [data]. *)
Definition command {A : Type} (data : A) (run : Database -> Database)
    (w : Write) : Request (Response A) :=
  fun s =>
    if fails_at 0 s then (Error, advance s)
    else (Data data, done s (run (db s)) w).

Definition has_id (accountId : string) (a : Account) : bool :=
  String.eqb (id a) accountId.

(** [from("accounts").select("current_balance").eq("id", accountId).single()]:
    an error unless exactly one row matches. *)
Definition select_current_balance (accountId : string) : Request (Response number) :=
  query (fun d =>
           match filter (has_id accountId) (accounts_tbl d) with
           | [a] => Data (current_balance a)
           | _ => Error
           end).

Definition set_balance_rows (accountId : string) (v : number)
    (rows : list Account) : list Account :=
  map (fun a => if has_id accountId a then with_balance a v else a) rows.

(** [from("accounts").update({ current_balance: v }).eq("id", accountId)].
    The column is [numeric(12,2)]: it keeps a whole number of hundredths as
    it is sent, which is the case the model covers; [v] is the value
    sent. *)
Definition update_balance (accountId : string) (v : number) : Request (Response unit) :=
  command tt
    (fun d => with_accounts d (set_balance_rows accountId v (accounts_tbl d)))
    (UpdateBalance accountId v).

(** [from("account_balance_history").insert(rows)] *)
Definition insert_history (rows : list BalanceEntry) : Request (Response unit) :=
  command tt
    (fun d => with_history d (history_tbl d ++ rows)%list)
    (InsertHistory rows).

(** [from("account_balance_history").insert(row).select().single()] *)
Definition insert_history_returning (row : BalanceEntry) : Request (Response BalanceEntry) :=
  command row
    (fun d => with_history d (history_tbl d ++ [row])%list)
    (InsertHistory [row]).

(** [from("account_transfers").insert(row)] *)
Definition insert_transfer (row : Transfer) : Request (Response unit) :=
  command tt
    (fun d => with_transfers d (transfers_tbl d ++ [row])%list)
    (InsertTransfer row).

(** Observations on the database. *)
Definition db_balance (d : Database) (accountId : string) : option number :=
  option_map current_balance (find (has_id accountId) (accounts_tbl d)).

Definition history_of (d : Database) (accountId : string) : list BalanceEntry :=
  filter (fun e => String.eqb (account_id e) accountId) (history_tbl d).

(** ** The balance posting primitive (lib/account-balance) *)

Inductive Operation : Type := op_add | op_remove.

(** The signed change of the balance: lines 28 to 36. *)
Definition delta (amount : number) (accountType : AccountType)
    (operation : Operation) : number :=
  match accountType with
  | credit_card =>
      match operation with op_add => amount | op_remove => neg amount end
  | bank_account =>
      match operation with op_add => neg amount | op_remove => amount end
  end.

Definition default_note (operation : Operation) : string :=
  ("Expense " ++ match operation with
                 | op_add => "created"
                 | op_remove => "removed"
                 end)%string.

(** [updateAccountBalance].  The column read is a number, which [Number]
    leaves as it is.  The two requests of [Promise.all] are sent in the
    order of the array; they write to different tables. *)
Definition updateAccountBalance (accountId userId : string) (amount : number)
    (accountType : AccountType) (operation : Operation)
    (note : option string) : Request unit :=
  account <- select_current_balance accountId ;;
  match account with
  | Error => ret tt
  | Data current_balance =>
      let current := current_balance in
      let newBalance :=
        (Math_round ((current + delta amount accountType operation) * int 100)
           / int 100)%js in
      update_balance accountId newBalance ;;;
      insert_history
        [ {| account_id := accountId;
             entry_user_id := userId;
             balance_date := None;
             balance := newBalance;
             note := Some (or_default note (default_note operation)) |} ] ;;;
      ret tt
  end.

(** ** The posting in binary64 *)

Module Binary64.

Definition float : Set := PrimFloat.float.

(** The number of an integer; exact up to [2^53]. *)
Definition of_Z (n : Z) : float :=
  if (n <? 0)%Z then PrimFloat.opp (PrimFloat.of_uint63 (Uint63.of_Z (- n)))
  else PrimFloat.of_uint63 (Uint63.of_Z n).

(** The number a decimal literal with [places] decimals denotes: the
    binary64 number closest to [n / 10^places]. *)
Definition decimal (n : Z) (places : nat) : float :=
  PrimFloat.div (of_Z n) (of_Z (10 ^ Z.of_nat places)).

(** The rational a finite number is. *)
Definition exact (x : float) : Q :=
  match FloatOps.Prim2SF x with
  | SpecFloat.S754_finite s m e =>
      (if s then - inject_Z (Z.pos m) else inject_Z (Z.pos m)) * Qpower 2 e
  | _ => 0
  end.

(** [Math.round]: the closest integer, a tie going to the one closer to
    [+Infinity]; a number without fractional bits, a zero, an infinity and
    [NaN] are returned as they are. *)
Definition Math_round (x : float) : float :=
  match FloatOps.Prim2SF x with
  | SpecFloat.S754_finite s m e =>
      if (0 <=? e)%Z then x
      else
        let n := Qfloor (exact x + (1 # 2)) in
        if (n =? 0)%Z then (if s then PrimFloat.neg_zero else PrimFloat.zero)
        else of_Z n
  | _ => x
  end.

(** Lines 28 to 38 of [updateAccountBalance]. *)
Definition newBalance (current amount : float) (accountType : AccountType)
    (operation : Operation) : float :=
  let delta :=
    match accountType with
    | credit_card =>
        match operation with op_add => amount | op_remove => PrimFloat.opp amount end
    | bank_account =>
        match operation with op_add => PrimFloat.opp amount | op_remove => amount end
    end in
  PrimFloat.div
    (Math_round (PrimFloat.mul (PrimFloat.add current delta) (of_Z 100)))
    (of_Z 100).

(** Line 321 of [handleTransfer]: the new balance of the source. *)
Definition newFromBalance (current amount : float) : float :=
  PrimFloat.sub current amount.

End Binary64.

(** ** The accounts table component (components/accounts/account-table.tsx) *)

(** What the user is shown.  The text of a backend error and the formatted
    amount of the success message are left out of the messages. *)
Inductive Toast : Type :=
| toast_error (message : string)
| toast_success (message : string).

(** The state of the component that [handleTransfer] reads.
    [transferAmount] stands for [Number(transferAmount)], the number the
    text of the amount field converts to. *)
Record TransferForm : Type := mkTransferForm {
  accounts : list Account;
  userId : string;
  transferFromId : string;
  transferToId : string;
  transferAmount : number;
  transferNote : string;
  transferDate : string
}.

(** Lines 320 to 326. *)
Definition newFromBalance (from : Account) (amount : number) : number :=
  (current_balance from - amount)%js.

Definition newToBalance (to : Account) (amount : number) : number :=
  match account_type to with
  | credit_card => (current_balance to - amount)%js
  | bank_account => (current_balance to + amount)%js
  end.

Definition historyNote (transferNote : string) (to : Account) : string :=
  (if truthy_string transferNote
   then "Transfer: " ++ transferNote
   else "Transfer " ++
        match account_type to with
        | credit_card => "payment to"
        | bank_account => "to"
        end ++ " " ++ account_name to)%string.

Definition historyNoteReverse (transferNote : string) (from : Account) : string :=
  (if truthy_string transferNote
   then "Transfer: " ++ transferNote
   else "Transfer from " ++ account_name from)%string.

(** [setAccounts] at the end of a transfer. *)
Definition transferred_accounts (from to : Account) (nf nt : number)
    (l : list Account) : list Account :=
  map (fun a =>
         if String.eqb (id a) (id from) then with_balance a nf
         else if String.eqb (id a) (id to) then with_balance a nt
         else a) l.

(** The outcome of the checks at the head of [handleTransfer]. *)
Inductive Checked : Type :=
| Rejected (toast : option Toast)
| Accepted (from to : Account) (amount : number).

(** Lines 293 to 314: the checks, in the order of the code. *)
Definition check_transfer (st : TransferForm) : Checked :=
  if negb (truthy_string (transferFromId st)) || negb (truthy_string (transferToId st))
  then Rejected (Some (toast_error "Select both accounts"))
  else if String.eqb (transferFromId st) (transferToId st)
  then Rejected (Some (toast_error "Cannot transfer to the same account"))
  else
    let amount := transferAmount st in
    if isNaN amount || le amount (int 0)
    then Rejected (Some (toast_error "Enter a valid amount greater than 0"))
    else
      match find (has_id (transferFromId st)) (accounts st),
            find (has_id (transferToId st)) (accounts st) with
      | Some from, Some to =>
          if negb (String.eqb (currency from) (currency to))
          then Rejected (Some (toast_error "Cannot transfer between different currencies"))
          else Accepted from to amount
      | _, _ => Rejected None
      end.

(** The two history rows and the transfer row of lines 352 to 386. *)
Definition history_rows (today : string) (st : TransferForm) (from to : Account)
    (nf nt : number) : list BalanceEntry :=
  [ {| account_id := id from;
       entry_user_id := userId st;
       balance_date := Some today;
       balance := nf;
       note := Some (historyNote (transferNote st) to) |};
    {| account_id := id to;
       entry_user_id := userId st;
       balance_date := Some today;
       balance := nt;
       note := Some (historyNoteReverse (transferNote st) from) |} ].

Definition transfer_row (today : string) (st : TransferForm) (from to : Account)
    (amount : number) : Transfer :=
  {| transfer_user_id := userId st;
     from_account_id := id from;
     to_account_id := id to;
     amount := amount;
     transfer_currency := currency from;
     transfer_note := or_null (transferNote st);
     transfer_date := today |}.

(** [transferDate || new Date().toISOString().split("T")[0]] *)
Definition transfer_day (now : string) (st : TransferForm) : string :=
  if truthy_string (transferDate st) then transferDate st else now.

(** Lines 316 to 401: the writes of an accepted transfer. *)
Definition perform_transfer (now : string) (st : TransferForm)
    (from to : Account) (amount : number)
    : Request (option Toast * list Account) :=
  let today := transfer_day now st in
  let nf := newFromBalance from amount in
  let nt := newToBalance to amount in
  fromErr <- update_balance (id from) nf ;;
  if is_error fromErr
  then ret (Some (toast_error "Failed to update source account"), accounts st)
  else
    toErr <- update_balance (id to) nt ;;
    if is_error toErr
    then ret (Some (toast_error "Failed to update target account"), accounts st)
    else
      insert_history (history_rows today st from to nf nt) ;;;
      insert_transfer (transfer_row today st from to amount) ;;;
      ret (Some (toast_success "Transferred"),
           transferred_accounts from to nf nt (accounts st)).

(** The client after the successful requests of an accepted transfer: the
    source update, the destination update, the insert of the history rows
    and the insert of the transfer row. *)
Definition after_source (from : Account) (A : number) (s : Supabase) : Supabase :=
  let nf := newFromBalance from A in
  done s (with_accounts (db s) (set_balance_rows (id from) nf (accounts_tbl (db s))))
       (UpdateBalance (id from) nf).

Definition after_target (from to : Account) (A : number) (s : Supabase) : Supabase :=
  let nt := newToBalance to A in
  let s1 := after_source from A s in
  done s1 (with_accounts (db s1) (set_balance_rows (id to) nt (accounts_tbl (db s1))))
       (UpdateBalance (id to) nt).

Definition after_history (now : string) (st : TransferForm) (from to : Account)
    (A : number) (s : Supabase) : Supabase :=
  let rows := history_rows (transfer_day now st) st from to
                (newFromBalance from A) (newToBalance to A) in
  let s2 := after_target from to A s in
  done s2 (with_history (db s2) (history_tbl (db s2) ++ rows)) (InsertHistory rows).

Definition after_transfer (now : string) (st : TransferForm) (from to : Account)
    (A : number) (s : Supabase) : Supabase :=
  let row := transfer_row (transfer_day now st) st from to A in
  let s3 := after_history now st from to A s in
  done s3 (with_transfers (db s3) (transfers_tbl (db s3) ++ [row])) (InsertTransfer row).

(** [handleTransfer]; [now] is the current date as a string.  The result is
    the toast shown, if any, and the accounts of the component afterwards. *)
Definition handleTransfer (now : string) (st : TransferForm)
    : Request (option Toast * list Account) :=
  match check_transfer st with
  | Rejected toast => ret (toast, accounts st)
  | Accepted from to amount => perform_transfer now st from to amount
  end.

(** The accounts offered as source and as destination in the dialog. *)
Definition fromAccountOptions (st : TransferForm) : list Account :=
  filter (fun a => AccountStatus_eqb (status a) active) (accounts st).

Definition toAccountOptions (st : TransferForm) : list Account :=
  let transferCurrency :=
    match find (has_id (transferFromId st)) (accounts st) with
    | Some fromAccount => currency fromAccount
    | None => EmptyString
    end in
  filter (fun a =>
            negb (String.eqb (id a) (transferFromId st))
            && AccountStatus_eqb (status a) active
            && String.eqb (currency a) transferCurrency)
         (accounts st).

(** [openTransfer(prefillFromId)]: the row button passes the id of its own
    account, the toolbar button passes nothing. *)
Definition openTransfer (now : string) (prefillFromId : option string)
    (st : TransferForm) : TransferForm :=
  {| accounts := accounts st;
     userId := userId st;
     transferFromId := or_default prefillFromId EmptyString;
     transferToId := EmptyString;
     transferAmount := int 0;
     transferNote := EmptyString;
     transferDate := now |}.

(** The choices made in the dialog: [setTransferToId] and
    [setTransferAmount]. *)
Definition choose (toId : string) (amount : number) (st : TransferForm)
    : TransferForm :=
  {| accounts := accounts st;
     userId := userId st;
     transferFromId := transferFromId st;
     transferToId := toId;
     transferAmount := amount;
     transferNote := transferNote st;
     transferDate := transferDate st |}.

(** ** Manual balance correction (account detail view) *)

(** [handleBalanceUpdate]: [newBalance] stands for [Number(newBalance)],
    [account] is the account on display.  The result is the toast shown and
    the balance on display afterwards. *)
Definition handleBalanceUpdate (now : string) (account : Account) (userId : string)
    (newBalance : number) (balanceNote : string) : Request (Toast * number) :=
  let balance := newBalance in
  if isNaN balance
  then ret (toast_error "Enter a valid balance", current_balance account)
  else
    updateError <- update_balance (id account) balance ;;
    if is_error updateError
    then ret (toast_error "Failed to update balance", current_balance account)
    else
      historyError <- insert_history_returning
        {| account_id := id account;
           entry_user_id := userId;
           balance_date := Some now;
           balance := balance;
           note := or_null balanceNote |} ;;
      ret (if is_error historyError
           then toast_error "Balance updated but history failed"
           else toast_success "Balance updated",
           balance).

(** ** The operations that set a balance *)

Inductive LedgerOperation : Type :=
| ExpensePosting (accountId userId : string) (amount : number)
    (accountType : AccountType) (operation : Operation) (note : option string)
| TransferLegs (now : string) (st : TransferForm)
| ManualCorrection (now : string) (account : Account) (userId : string)
    (newBalance : number) (balanceNote : string).

Definition run (op : LedgerOperation) : Request unit :=
  match op with
  | ExpensePosting accountId userId amount accountType operation note =>
      updateAccountBalance accountId userId amount accountType operation note
  | TransferLegs now st => handleTransfer now st ;;; ret tt
  | ManualCorrection now account userId newBalance balanceNote =>
      handleBalanceUpdate now account userId newBalance balanceNote ;;; ret tt
  end.

(** The operation passes its own checks: the posting reads its account,
    the transfer is accepted, the corrected balance is a number. *)
Definition goes_ahead (op : LedgerOperation) (s : Supabase) : Prop :=
  match op with
  | ExpensePosting accountId _ _ _ _ _ =>
      exists a, filter (has_id accountId) (accounts_tbl (db s)) = [a]
  | TransferLegs _ st =>
      exists from to amount, check_transfer st = Accepted from to amount
  | ManualCorrection _ _ _ newBalance _ => isNaN newBalance = false
  end.

(** The accounts whose balance the operation sets. *)
Definition mutated (op : LedgerOperation) : list string :=
  match op with
  | ExpensePosting accountId _ _ _ _ _ => [accountId]
  | TransferLegs _ st => [transferFromId st; transferToId st]
  | ManualCorrection _ account _ _ _ => [id account]
  end.

(** ** The account form (components/accounts/account-form.tsx) *)

(** [from("accounts").update(payload).eq("id", accountId)]: the payload
    carries every column of the form, the balance among them. *)
Definition update_account (accountId : string) (payload : Account)
    : Request (Response unit) :=
  command tt
    (fun d =>
       with_accounts d
         (map (fun a =>
                 if has_id accountId a
                 then {| id := id a; user_id := user_id payload;
                         account_name := account_name payload;
                         account_type := account_type payload;
                         currency := currency payload;
                         current_balance := current_balance payload;
                         status := status payload |}
                 else a) (accounts_tbl d)))
    (UpdateAccount accountId payload).

(** The row an insert of [payload] creates, [newId] being the id the
    database gives it. *)
Definition new_row (newId : string) (payload : Account) : Account :=
  {| id := newId; user_id := user_id payload;
     account_name := account_name payload;
     account_type := account_type payload;
     currency := currency payload;
     current_balance := current_balance payload;
     status := status payload |}.

(** [from("accounts").insert(payload).select("id").single()] *)
Definition insert_account (newId : string) (payload : Account)
    : Request (Response string) :=
  command newId
    (fun d => with_accounts d (accounts_tbl d ++ [new_row newId payload])%list)
    (InsertAccount (new_row newId payload)).

(** [onSubmit] of the form.  [account] is the account being edited, if any;
    [data] holds the fields of the form, its [current_balance] being the
    field [opening_balance]; [opened_date] is the field of that name. *)
Definition onSubmit (now newId : string) (account : option Account)
    (data : Account) (opened_date : string) : Request Toast :=
  let balance := current_balance data in
  let payload := data in
  match account with
  | Some account =>
      error <- update_account (id account) payload ;;
      if is_error error
      then ret (toast_error "Failed to update account")
      else ret (toast_success "Account updated")
  | None =>
      newAccount <- insert_account newId payload ;;
      match newAccount with
      | Error => ret (toast_error "Failed to create account")
      | Data newAccountId =>
          insert_history
            [ {| account_id := newAccountId;
                 entry_user_id := user_id data;
                 balance_date :=
                   Some (if truthy_string opened_date then opened_date else now);
                 balance := balance;
                 note := Some "Opening balance"%string |} ] ;;;
          ret (toast_success "Account created")
      end
  end.

(** ** The expenses table component *)

(** An account as the expense components know it. *)
Record AccountOption : Type := mkAccountOption {
  option_id : string;
  option_account_name : string;
  option_account_type : AccountType;
  option_currency : string
}.

(** [from("expenses").delete().eq("id", expenseId)] *)
Definition delete_expense (expenseId : string) : Request (Response unit) :=
  command tt
    (fun d =>
       with_expenses d
         (filter (fun e => negb (String.eqb (expense_id e) expenseId))
                 (expenses_tbl d)))
    (DeleteExpense expenseId).

(** [handleDelete] of the expenses table: the expense is deleted first,
    then the balance of its linked account is reverted.  The result is the
    toast shown, if any, and the expenses of the component afterwards. *)
Definition handleDelete (deleteId : option string) (expenses : list Expense)
    (accounts : list AccountOption) : Request (option Toast * list Expense) :=
  match deleteId with
  | None => ret (None, expenses)
  | Some deleteId =>
      let expToDelete :=
        find (fun e => String.eqb (expense_id e) deleteId) expenses in
      error <- delete_expense deleteId ;;
      if is_error error
      then ret (Some (toast_error "Failed to delete expense"), expenses)
      else
        match expToDelete with
        | Some e =>
            match expense_account_id e with
            | Some linked =>
                if truthy_string linked
                then
                  match find (fun a => String.eqb (option_id a) linked) accounts with
                  | Some acct =>
                      updateAccountBalance (option_id acct) (expense_user_id e)
                        (expense_amount e) (option_account_type acct) op_remove
                        (Some ("Expense deleted: " ++ category e)%string)
                  | None => ret tt
                  end
                else ret tt
            | None => ret tt
            end
        | None => ret tt
        end ;;;
        ret (Some (toast_success "Expense deleted"),
             filter (fun e => negb (String.eqb (expense_id e) deleteId)) expenses)
  end.

(** ** Exchange rates (lib/currency) *)

(** [Record<string, number>]: the own properties of the object, in the
    order of [Object.keys]. *)
Definition Rates : Type := list (string * number).

(** The own property [k] of [rates], if there is one. *)
Fixpoint rates_get (rates : Rates) (k : string) : option number :=
  match rates with
  | [] => None
  | (k', v) :: rest => if String.eqb k' k then Some v else rates_get rest k
  end.

(** The own property [k] of [rates] set to [v]: an existing key keeps its
    place, a new one goes last. *)
Fixpoint rates_set (rates : Rates) (k : string) (v : number) : Rates :=
  match rates with
  | [] => [(k, v)]
  | (k', v') :: rest =>
      if String.eqb k' k then (k', v) :: rest else (k', v') :: rates_set rest k v
  end.

Definition Object_keys (rates : Rates) : list string := map fst rates.

(** The names of the members of [Object.prototype], which an object made
    by a literal or by [JSON.parse] inherits. *)
Definition Object_prototype : list string :=
  [ "constructor"; "__defineGetter__"; "__defineSetter__"; "hasOwnProperty";
    "__lookupGetter__"; "__lookupSetter__"; "isPrototypeOf";
    "propertyIsEnumerable"; "toString"; "valueOf"; "__proto__";
    "toLocaleString" ]%string.

Definition inherited (k : string) : bool :=
  existsb (String.eqb k) Object_prototype.

(** What an expression [rates[k]] evaluates to: a number, a function or an
    object of [Object.prototype], or [undefined]. *)
Inductive Value : Type :=
| undefined
| a_number (n : number)
| an_object.

(** [rates[k]]: the own property of that name, else the member of
    [Object.prototype] of that name, else [undefined]. *)
Definition rates_lookup (rates : Rates) (k : string) : Value :=
  match rates_get rates k with
  | Some v => a_number v
  | None => if inherited k then an_object else undefined
  end.

(** Truthiness of a value, and the number a division converts it to. *)
Definition truthy_value (v : Value) : bool :=
  match v with
  | undefined => false
  | a_number n => truthy n
  | an_object => true
  end.

Definition to_number (v : Value) : number :=
  match v with
  | a_number n => n
  | undefined | an_object => NaN
  end.

(** [rates[k] = v] for a number [v].  For the key ["__proto__"], unless
    [rates] has an own property of that name, the assignment runs the
    setter of [Object.prototype], which ignores a number: no key is
    added. *)
Definition rates_assign (rates : Rates) (k : string) (v : number) : Rates :=
  match rates_get rates k with
  | Some _ => rates_set rates k v
  | None => if String.eqb k "__proto__" then rates else rates_set rates k v
  end.

(** The outcome of an [async] function. *)
Inductive Completion (A : Type) : Type :=
| Returned (a : A)
| Thrown.
Arguments Returned {A} a.
Arguments Thrown {A}.

(** What [res.json()] gives: no JSON at all, or an object whose field
    [rates] may be missing. *)
Inductive Body : Type :=
| InvalidJson
| JsonData (rates : option Rates).

(** What [fetch] gives: a rejection (the transport failed) or a response. *)
Inductive FetchResult : Type :=
| NetworkError
| HttpResponse (ok : bool) (status : Z) (body : Body).

(** The rate provider, by base currency. *)
Definition Provider : Type := string -> FetchResult.

Definition fetchRates (provider : Provider) (base : string) : Completion Rates :=
  match provider base with
  | NetworkError => Thrown
  | HttpResponse ok _ body =>
      if negb ok then Returned []
      else
        match body with
        | InvalidJson => Thrown
        | JsonData (Some rates) => Returned rates
        | JsonData None => Returned []
        end
  end.

Record RatesCache : Type := mkRatesCache {
  base : string;
  rates : Rates;
  fetchedAt : Z
}.

Definition CACHE_TTL : Z := 24 * 60 * 60 * 1000.

(** [cache && cache.base === base && now - cache.fetchedAt < CACHE_TTL]:
    the rates of a cache entry that can be used, if there is one. *)
Definition cached_rates (now : Z) (base : string) (cache : option RatesCache)
    : option Rates :=
  match cache with
  | Some {| base := cache_base; rates := cache_rates; fetchedAt := cache_fetchedAt |} =>
      if String.eqb cache_base base && (now - cache_fetchedAt <? CACHE_TTL)%Z
      then Some cache_rates else None
  | None => None
  end.

(** [getExchangeRates]; [now] is [Date.now()], [cache] the module variable
    of that name, [base_arg] the argument, which defaults to ["PHP"].  The
    result is the outcome and the cache afterwards. *)
Definition getExchangeRates (provider : Provider) (now : Z)
    (base_arg : option string) (cache : option RatesCache)
    : Completion Rates * option RatesCache :=
  let base := match base_arg with Some b => b | None => "PHP"%string end in
  match cached_rates now base cache with
  | Some cached => (Returned cached, cache)
  | None =>
      match fetchRates provider base with
      | Thrown => (Thrown, cache)
      | Returned rates =>
          let rates := rates_assign rates base (int 1) in
          (Returned rates,
           Some {| base := base; rates := rates; fetchedAt := now |})
      end
  end.

(** The rule of [convertAmount] case by case: an empty currency code
    leaves the amount as it is; so does a currency whose rate in the table
    is [0] or [NaN]; a currency with any other rate in the table divides by
    it; a currency that is not in the table leaves the amount as it is,
    unless its code is the name of a member of [Object.prototype], which
    gives [NaN]. *)
Definition convertAmount_by_cases (amount : number) (fromCurrency : string)
    (rates : Rates) : number :=
  if String.eqb fromCurrency EmptyString then amount
  else
    match rates_get rates fromCurrency with
    | Some rate => if truthy rate then (amount / rate)%js else amount
    | None => if inherited fromCurrency then NaN else amount
    end.

(** [Object.keys(rates).find((k) => rates[k] === 1)] *)
Definition first_unit_key (rates : Rates) : option string :=
  find (fun k => match rates_get rates k with
                 | Some r => strict_eq r (int 1)
                 | None => false
                 end) (Object_keys rates).

Definition convertAmount (amount : number) (fromCurrency : string)
    (rates : Rates) : number :=
  if negb (truthy_string fromCurrency)
     || match first_unit_key rates with
        | Some k => String.eqb fromCurrency k
        | None => false
        end
  then amount
  else
    let rate := rates_lookup rates fromCurrency in
    if negb (truthy_value rate) then amount
    else (amount / to_number rate)%js.

(** ** Sample data *)

Module Sample.

Definition savings : Account :=
  mkAccount "acc-1" "user-1" "Savings" bank_account "PHP" (cents 100000) active.
Definition card : Account :=
  mkAccount "acc-2" "user-1" "Visa" credit_card "PHP" (cents 100000) active.
Definition checking : Account :=
  mkAccount "acc-3" "user-1" "Checking" bank_account "PHP" (cents 20000) active.
Definition dollars : Account :=
  mkAccount "acc-4" "user-1" "Dollars" bank_account "USD" (cents 30000) active.
Definition dormant : Account :=
  mkAccount "acc-5" "user-1" "Dormant" bank_account "PHP" (cents 40000) closed.
Definition new_card : Account :=
  mkAccount "acc-6" "user-1" "New card" credit_card "PHP" (cents 0) active.

Definition all_accounts : list Account :=
  [savings; card; checking; dollars; dormant; new_card].

Definition database : Database := mkDatabase all_accounts [] [] [].

(** A backend whose coming requests have the outcomes [o]. *)
Definition backend (o : list bool) : Supabase := mkSupabase database o [].

(** The accounts table with its transfer dialog closed. *)
Definition table : TransferForm :=
  mkTransferForm all_accounts "user-1" "" "" (int 0) "" "".

(** The dialog opened from the row of [from], with destination and amount
    chosen. *)
Definition dialog (from to : string) (amount : number) : TransferForm :=
  choose to amount (openTransfer "2026-01-15" (Some from) table).

(** A provider that is down, and one that cannot be reached. *)
Definition unavailable : Provider :=
  fun _ => HttpResponse false 503 InvalidJson.
Definition unreachable : Provider := fun _ => NetworkError.

End Sample.

(** ** Totals (lib/currency, the accounts table, the dashboard) *)

(** [a > b] on numbers: every comparison with [NaN] is false. *)
Definition gt (a b : number) : bool :=
  match a, b with
  | NaN, _ | _, NaN => false
  | _, PInf => false
  | NInf, _ => false
  | Fin p, Fin q => negb (Qle_bool p q)
  | PInf, _ => true
  | Fin _, NInf => true
  end.

(** [n || 0] *)
Definition or_zero (n : number) : number :=
  if truthy n then n else int 0.

(** [c || "PHP"] *)
Definition or_PHP (c : string) : string :=
  if truthy_string c then c else "PHP"%string.

(** An item of [sumConverted]. *)
Record Item : Type := mkItem {
  item_amount : number;
  item_currency : string
}.

(** [sumConverted] (lib/currency). *)
Definition sumConverted (items : list Item) (rates : Rates) : number :=
  fold_left
    (fun sum item =>
       (sum + convertAmount (item_amount item) (item_currency item) rates)%js)
    items (int 0).

Definition AccountType_eqb (a b : AccountType) : bool :=
  match a, b with
  | bank_account, bank_account | credit_card, credit_card => true
  | _, _ => false
  end.

(** The summary cards of the accounts table: lines 129 to 144. *)
Definition activeAccounts (accounts : list Account) : list Account :=
  filter (fun a => AccountStatus_eqb (status a) active) accounts.

Definition converted_total (type : AccountType) (accounts : list Account)
    (exchangeRates : Rates) : number :=
  fold_left
    (fun sum a =>
       (sum + convertAmount (current_balance a) (or_PHP (currency a))
                            exchangeRates)%js)
    (filter (fun a => AccountType_eqb (account_type a) type)
            (activeAccounts accounts))
    (int 0).

Definition totalBankBalance (accounts : list Account) (exchangeRates : Rates)
    : number :=
  converted_total bank_account accounts exchangeRates.

Definition totalCreditUsed (accounts : list Account) (exchangeRates : Rates)
    : number :=
  converted_total credit_card accounts exchangeRates.

(** The net worth of the dashboard; [allActiveAccounts] is what the query
    for the active accounts returned. *)
Definition account_items (type : AccountType) (allActiveAccounts : list Account)
    : list Item :=
  map (fun a => {| item_amount := or_zero (current_balance a);
                   item_currency := or_PHP (currency a) |})
      (filter (fun a => AccountType_eqb (account_type a) type) allActiveAccounts).

Definition dashboardBankBalance (allActiveAccounts : list Account) (rates : Rates)
    : number :=
  sumConverted (account_items bank_account allActiveAccounts) rates.

Definition totalCreditOwed (allActiveAccounts : list Account) (rates : Rates)
    : number :=
  sumConverted (account_items credit_card allActiveAccounts) rates.

Definition netWorth (allActiveAccounts : list Account) (rates : Rates) : number :=
  (dashboardBankBalance allActiveAccounts rates
   - totalCreditOwed allActiveAccounts rates)%js.

(** The trend of the dashboard, in percent: [revenueTrend] and
    [expensesTrend] are this function of the totals of the month and of the
    month before. *)
Definition trend (month prevMonth : number) : number :=
  if gt prevMonth (int 0)
  then (((month - prevMonth) / prevMonth) * int 100)%js
  else if gt month (int 0) then int 100 else int 0.

(** The share of the revenue in the bar of the dashboard. *)
Definition revenuePercent (revenueMonth expensesTotal : number) : number :=
  let netTotal := (revenueMonth + expensesTotal)%js in
  if gt netTotal (int 0)
  then ((revenueMonth / netTotal) * int 100)%js
  else int 50.

(** ** Pages of the accounts table: lines 120 to 127 and 617 to 650 *)

Definition PAGE_SIZE : nat := 10.

Definition AccountType_name (t : AccountType) : string :=
  match t with
  | bank_account => "bank_account"
  | credit_card => "credit_card"
  end.

(** [filtered]: the tab ["all"] keeps every account. *)
Definition filtered (typeFilter : string) (accounts : list Account) : list Account :=
  filter (fun acc =>
            if String.eqb typeFilter "all" then true
            else String.eqb (AccountType_name (account_type acc)) typeFilter)
         accounts.

(** [Math.max(1, Math.ceil(length / PAGE_SIZE))] *)
Definition totalPages (length : nat) : Z :=
  Z.max 1 (Qceiling (inject_Z (Z.of_nat length) / inject_Z (Z.of_nat PAGE_SIZE))).

(** [l.slice(start, end)] for indices that are not negative. *)
Definition slice {A : Type} (start end_ : nat) (l : list A) : list A :=
  skipn start (firstn end_ l).

Definition paginated {A : Type} (rows : list A) (page : nat) : list A :=
  slice (page * PAGE_SIZE) ((page + 1) * PAGE_SIZE) rows.


(** [disabled] of the buttons "Previous" and "Next". *)
Definition previous_disabled (page : nat) : bool := Nat.eqb page 0.

(** ** Realtime changes of the accounts table: lines 100 to 117 *)

Definition onInsert (record : Account) (prev : list Account) : list Account :=
  if existsb (fun a => String.eqb (id a) (id record)) prev
  then prev
  else record :: prev.

(** [{ ...a, ...record }] is [record], which carries every column. *)
Definition onUpdate (record : Account) (prev : list Account) : list Account :=
  map (fun a => if String.eqb (id a) (id record) then record else a) prev.

Definition onDelete (record : Account) (prev : list Account) : list Account :=
  filter (fun a => negb (String.eqb (id a) (id record))) prev.

(** ** Manual balance correction from the accounts table: lines 224 to 271 *)

(** [setAccounts] at the end of a correction. *)
Definition corrected_accounts (balanceAccount : Account) (balance : number)
    (l : list Account) : list Account :=
  map (fun a =>
         if String.eqb (id a) (id balanceAccount) then with_balance a balance
         else a) l.

(** [handleBalanceUpdate] of the table; [balanceAccount] is the account the
    dialog was opened for, [newBalance] stands for [Number(newBalance)].
    The result is the toast shown, if any, and the accounts of the
    component afterwards. *)
Definition handleBalanceUpdate_table (now : string) (accounts : list Account)
    (userId : string) (balanceAccount : option Account) (newBalance : number)
    (balanceNote : string) : Request (option Toast * list Account) :=
  match balanceAccount with
  | None => ret (None, accounts)
  | Some balanceAccount =>
      let balance := newBalance in
      if isNaN balance
      then ret (Some (toast_error "Enter a valid balance"), accounts)
      else
        updateError <- update_balance (id balanceAccount) balance ;;
        if is_error updateError
        then ret (Some (toast_error "Failed to update balance"), accounts)
        else
          historyError <- insert_history
            [ {| account_id := id balanceAccount;
                 entry_user_id := userId;
                 balance_date := Some now;
                 balance := balance;
                 note := or_null balanceNote |} ] ;;
          ret (Some (if is_error historyError
                     then toast_error "Balance updated but failed to log history"
                     else toast_success "Balance updated"),
               corrected_accounts balanceAccount balance accounts)
  end.

(** ** Editing an expense (the expenses table): lines 629 to 690 *)

(** [Math.abs] *)
Definition Math_abs (a : number) : number :=
  match a with
  | NaN => NaN
  | PInf | NInf => PInf
  | Fin q => Fin (Qabs q)
  end.

(** A request that writes to the table [expenses] without deleting: it
    takes the next outcome of the schedule and, unless that is a failure,
    applies [run] to the database.  The record of writes, which has no
    entry for such a write, is left as it is. *)
Definition expenses_command (run : Database -> Database) : Request (Response unit) :=
  fun s =>
    if fails_at 0 s then (Error, advance s)
    else (Data tt, {| db := run (db s); outcomes := List.tl (outcomes s);
                      writes := writes s |}).

(** [from("expenses").update({ amount, category, ... }).eq("id", expenseId)],
    for the columns of the model. *)
Definition update_expense (expenseId : string) (amount : number)
    (newCategory : string) : Request (Response unit) :=
  expenses_command
    (fun d =>
       with_expenses d
         (map (fun e =>
                 if String.eqb (expense_id e) expenseId
                 then {| expense_id := expense_id e;
                         expense_user_id := expense_user_id e;
                         expense_amount := amount;
                         category := newCategory;
                         expense_account_id := expense_account_id e |}
                 else e) (expenses_tbl d))).

(** The posting of an edit: lines 654 to 669. *)
Definition edit_posting (editExpense : Expense) (amount : number)
    (editCategory : string) (accounts : list AccountOption) : Request unit :=
  let delta :=
    (Math_round ((amount - expense_amount editExpense) * int 100) / int 100)%js in
  match expense_account_id editExpense with
  | Some linked =>
      if truthy_string linked && negb (strict_eq delta (int 0))
      then
        match find (fun a => String.eqb (option_id a) linked) accounts with
        | Some acct =>
            updateAccountBalance (option_id acct) (expense_user_id editExpense)
              (Math_abs delta) (option_account_type acct)
              (if gt delta (int 0) then op_add else op_remove)
              (Some ("Expense edited: " ++ editCategory)%string)
        | None => ret tt
        end
      else ret tt
  | None => ret tt
  end.

(** [handleEdit] of the expenses table; [editAmount] stands for
    [Number(editAmount)].  Of the fields of the dialog only the amount and
    the category are columns of the model.  The result is the toast shown,
    if any, and the expenses of the component afterwards. *)
Definition handleEdit (editExpense : option Expense) (editAmount : number)
    (editCategory : string) (expenses : list Expense)
    (accounts : list AccountOption) : Request (option Toast * list Expense) :=
  match editExpense with
  | None => ret (None, expenses)
  | Some editExpense =>
      let amount := editAmount in
      if negb (truthy amount) || le amount (int 0)
      then ret (Some (toast_error "Enter a valid amount"), expenses)
      else
        error <- update_expense (expense_id editExpense)
                   (Math_round (amount * int 100) / int 100)%js editCategory ;;
        if is_error error
        then ret (Some (toast_error "Failed to update"), expenses)
        else
          edit_posting editExpense amount editCategory accounts ;;;
          ret (Some (toast_success "Expense updated"),
               map (fun e =>
                      if String.eqb (expense_id e) (expense_id editExpense)
                      then {| expense_id := expense_id e;
                              expense_user_id := expense_user_id e;
                              expense_amount := amount;
                              category := editCategory;
                              expense_account_id := expense_account_id e |}
                      else e) expenses)
  end.

(** ** The chart of the account detail view: lines 65 to 71 *)

(** A history entry as it is read from the store. *)
Record HistoryRow : Type := mkHistoryRow {
  row_id : string;
  row_balance_date : string;
  row_balance : number;
  row_note : option string
}.

(** [Array.prototype.sort] with a comparison function: the sort is stable.
    [le x y] says that the comparison of [x] with [y] is not above zero. *)
Fixpoint insert_by {A : Type} (le : A -> A -> bool) (x : A) (l : list A) : list A :=
  match l with
  | [] => [x]
  | y :: rest => if le x y then x :: l else y :: insert_by le x rest
  end.

Definition sort_by {A : Type} (le : A -> A -> bool) (l : list A) : list A :=
  fold_right (insert_by le) [] l.

(** [(a, b) => a.balance_date.localeCompare(b.balance_date)] not above zero;
    [localeCompare] is the comparison of the locale. *)
Definition date_le (localeCompare : string -> string -> Z) (a b : HistoryRow) : bool :=
  (localeCompare (row_balance_date a) (row_balance_date b) <=? 0)%Z.

(** [[...history].sort(...)] *)
Definition sorted_history (localeCompare : string -> string -> Z)
    (history : list HistoryRow) : list HistoryRow :=
  sort_by (date_le localeCompare) history.

(** [chartData]; [formatDate] is the function of that name of lib/utils,
    and [row_balance entry] stands for [Number(entry.balance)]. *)
Definition chartData (localeCompare : string -> string -> Z)
    (formatDate : string -> string) (history : list HistoryRow)
    : list (string * number) :=
  map (fun entry => (formatDate (row_balance_date entry), row_balance entry))
      (sorted_history localeCompare history).

(** The comparison by character codes, which is how [localeCompare] orders
    dates written as year-month-day. *)
Definition compare_codes (a b : string) : Z :=
  match String.compare a b with
  | Lt => (-1)%Z
  | Eq => 0%Z
  | Gt => 1%Z
  end.

(** ** The cache of rates as left by [getExchangeRates] *)

(** The entry, if there is one, holds the identity rate of its base. *)
Definition cache_has_identity (cache : option RatesCache) : Prop :=
  match cache with
  | Some c => rates_get (rates c) (base c) = Some (int 1)
  | None => True
  end.

(** ** More sample data *)

Module Cases.

(** Two hundredths of a dollar for one peso. *)
Definition peso_rates : Rates :=
  [("USD"%string, Fin (2 # 100)); ("PHP"%string, int 1)].

(** A provider that answers. *)
Definition healthy : Provider :=
  fun _ => HttpResponse true 200 (JsonData (Some [("USD"%string, Fin (2 # 100))])).

Definition invoices : list Item :=
  [ mkItem (cents 10000) "USD"; mkItem (cents 250000) "PHP";
    mkItem (cents 5000) "USD" ].

Definition lunch : Expense :=
  mkExpense "exp-1" "user-1" (cents 45000) "Meals" (Some "acc-1"%string).

Definition options : list AccountOption :=
  [ mkAccountOption "acc-1" "Savings" bank_account "PHP";
    mkAccountOption "acc-2" "Visa" credit_card "PHP" ].

Definition history : list HistoryRow :=
  [ mkHistoryRow "h-3" "2026-02-01" (cents 95000) None;
    mkHistoryRow "h-2" "2026-01-15" (cents 90000) (Some "Expense: Meals"%string);
    mkHistoryRow "h-1" "2026-01-15" (cents 100000) (Some "Opening balance"%string) ].

Definition brokerage : Account :=
  mkAccount "acc-7" "user-1" "Brokerage" bank_account "USD" (cents 70000) active.

End Cases.

(** * Properties *)

(** ** Numbers *)

Lemma num_eq_refl (a : number) : a =n= a.
Proof. destruct a; simpl; auto. reflexivity. Qed.

Lemma num_eq_sym (a b : number) : a =n= b -> b =n= a.
Proof. destruct a, b; simpl; auto. intros H; symmetry; exact H. Qed.

Lemma num_eq_trans (a b c : number) : a =n= b -> b =n= c -> a =n= c.
Proof.
  destruct a, b, c; simpl; auto; try contradiction.
  intros H1 H2. rewrite H1. exact H2.
Qed.

(** The rounding idiom on a finite number. *)
Lemma round2_Fin (q : Q) :
  round2 (Fin q) = Fin (inject_Z (Qfloor (q * inject_Z 100 + (1 # 2))) / inject_Z 100).
Proof. reflexivity. Qed.

(** On exact rationals the idiom rounds to two decimal places, half-up;
    in binary64 it does not always (see [Binary64.newBalance]). *)
Lemma round2_half_up (q : Q) :
  exists r : Q, round2 (Fin q) = Fin r /\ rounds_half_up_2 q r.
Proof.
  rewrite round2_Fin.
  set (k := Qfloor (q * inject_Z 100 + (1 # 2))).
  exists (inject_Z k / inject_Z 100). split; [reflexivity |].
  pose proof (Qfloor_le (q * inject_Z 100 + (1 # 2))) as Hlo.
  pose proof (Qlt_floor (q * inject_Z 100 + (1 # 2))) as Hhi.
  fold k in Hlo, Hhi. rewrite inject_Z_plus in Hhi.
  change (inject_Z 1) with 1 in Hhi.
  change (inject_Z 100) with 100 in *.
  unfold rounds_half_up_2. split; [| split].
  - exists k. reflexivity.
  - apply Qle_minus_iff. apply Qle_minus_iff in Hlo.
    setoid_replace (q + - (inject_Z k / 100 - (1 # 200)))
      with ((q * 100 + (1 # 2) + - inject_Z k) * (1 # 100)) by field.
    apply Qmult_le_0_compat; [exact Hlo | discriminate].
  - apply Qlt_minus_iff. apply Qlt_minus_iff in Hhi.
    setoid_replace (inject_Z k / 100 + (1 # 200) + - q)
      with ((inject_Z k + 1 + - (q * 100 + (1 # 2))) * (1 # 100)) by field.
    apply Qmult_lt_0_compat; [exact Hhi | reflexivity].
Qed.

Lemma Qfloor_cents (k : Z) : Qfloor ((k # 100) * inject_Z 100 + (1 # 2)) = k.
Proof.
  assert (H : (k # 100) * inject_Z 100 + (1 # 2) == inject_Z k + (1 # 2)).
  { unfold Qeq, Qplus, Qmult, inject_Z. simpl. lia. }
  rewrite H.
  apply Z.le_antisymm.
  - apply Z.lt_succ_r. rewrite Zlt_Qlt.
    eapply Qle_lt_trans; [apply Qfloor_le |].
    unfold Z.succ. rewrite inject_Z_plus. change (inject_Z 1) with 1. lra.
  - rewrite <- (Qfloor_Z k) at 1. apply Qfloor_resp_le. lra.
Qed.

(** A whole number of hundredths is left as it is. *)
Lemma round2_cents (k : Z) : round2 (cents k) =n= cents k.
Proof.
  unfold cents. rewrite round2_Fin, Qfloor_cents. cbv [num_eq].
  unfold Qeq, Qdiv, Qmult, Qinv, inject_Z. simpl. lia.
Qed.

Lemma round2_proper (a b : number) : a =n= b -> round2 a =n= round2 b.
Proof.
  destruct a, b; intros H; try contradiction; try (vm_compute; exact I).
  cbv [num_eq] in H. rewrite !round2_Fin.
  assert (E : Qfloor (q * inject_Z 100 + (1 # 2)) = Qfloor (q0 * inject_Z 100 + (1 # 2))).
  { apply Qfloor_comp. rewrite H. reflexivity. }
  rewrite E. apply num_eq_refl.
Qed.

(** ** The store *)

Lemma fails_at_advance (n : nat) (s : Supabase) :
  fails_at n (advance s) = fails_at (S n) s.
Proof. unfold fails_at, advance. simpl. destruct (outcomes s); destruct n; reflexivity. Qed.

Lemma fails_at_done (n : nat) (s : Supabase) (d : Database) (w : Write) :
  fails_at n (done s d w) = fails_at (S n) s.
Proof. unfold fails_at, done. simpl. destruct (outcomes s); destruct n; reflexivity. Qed.

Lemma query_ok {A : Type} (read : Database -> Response A) (s : Supabase) :
  fails_at 0 s = false -> query read s = (read (db s), advance s).
Proof. intros H. unfold query. rewrite H. reflexivity. Qed.

Lemma command_fails {A : Type} (data : A) (run : Database -> Database)
    (w : Write) (s : Supabase) :
  fails_at 0 s = true -> command data run w s = (Error, advance s).
Proof. intros H. unfold command. rewrite H. reflexivity. Qed.

Lemma command_ok {A : Type} (data : A) (run : Database -> Database)
    (w : Write) (s : Supabase) :
  fails_at 0 s = false -> command data run w s = (Data data, done s (run (db s)) w).
Proof. intros H. unfold command. rewrite H. reflexivity. Qed.

Lemma has_id_with_balance (i : string) (a : Account) (v : number) :
  has_id i (with_balance a v) = has_id i a.
Proof. reflexivity. Qed.

Lemma find_set_balance_same (i : string) (v : number) (rows : list Account) :
  find (has_id i) (set_balance_rows i v rows)
  = option_map (fun a => with_balance a v) (find (has_id i) rows).
Proof.
  unfold set_balance_rows.
  induction rows as [| a rows IH]; [reflexivity |].
  cbn [map find]. destruct (has_id i a) eqn:E.
  - rewrite has_id_with_balance, E. reflexivity.
  - rewrite E. exact IH.
Qed.

Lemma find_set_balance_other (i j : string) (v : number) (rows : list Account) :
  i <> j ->
  find (has_id j) (set_balance_rows i v rows) = find (has_id j) rows.
Proof.
  intros Hij. unfold set_balance_rows.
  induction rows as [| a rows IH]; [reflexivity |].
  cbn [map find]. destruct (has_id i a) eqn:Ei.
  - rewrite has_id_with_balance.
    destruct (has_id j a) eqn:Ej.
    + unfold has_id in Ei, Ej. apply String.eqb_eq in Ei, Ej. congruence.
    + exact IH.
  - destruct (has_id j a); [reflexivity | exact IH].
Qed.

Lemma filter_set_balance (i j : string) (v : number) (rows : list Account) :
  filter (has_id j) (set_balance_rows i v rows)
  = set_balance_rows i v (filter (has_id j) rows).
Proof.
  unfold set_balance_rows.
  induction rows as [| a rows IH]; [reflexivity |].
  cbn [map filter]. destruct (has_id i a) eqn:Ei.
  - rewrite has_id_with_balance. destruct (has_id j a); cbn [map].
    + rewrite Ei, IH. reflexivity.
    + exact IH.
  - destruct (has_id j a); cbn [map].
    + rewrite Ei, IH. reflexivity.
    + exact IH.
Qed.

Lemma filter_single_find {A : Type} (p : A -> bool) (l : list A) (a : A) :
  filter p l = [a] -> find p l = Some a.
Proof.
  induction l as [| x l IH]; simpl; [discriminate |].
  destruct (p x); [congruence | exact IH].
Qed.

Lemma filter_single_has_id (i : string) (rows : list Account) (a : Account) :
  filter (has_id i) rows = [a] -> has_id i a = true.
Proof.
  intros H. assert (In a (filter (has_id i) rows)) as Hin by (rewrite H; left; reflexivity).
  apply filter_In in Hin. tauto.
Qed.

Lemma db_balance_update (d : Database) (i : string) (v : number) (a : Account) :
  find (has_id i) (accounts_tbl d) = Some a ->
  db_balance (with_accounts d (set_balance_rows i v (accounts_tbl d))) i = Some v.
Proof.
  intros H. unfold db_balance. simpl. rewrite find_set_balance_same, H. reflexivity.
Qed.

(** ** The posting primitive *)

(** The posting when the account is read and both writes go through. *)
Lemma updateAccountBalance_ok (s : Supabase) (accountId userId : string)
    (a : Account) (amount : number) (accountType : AccountType)
    (operation : Operation) (note : option string) :
  filter (has_id accountId) (accounts_tbl (db s)) = [a] ->
  no_failure 3 s ->
  let v := round2 (current_balance a + delta amount accountType operation)%js in
  let e := {| account_id := accountId; entry_user_id := userId;
              balance_date := None; balance := v;
              note := Some (or_default note (default_note operation)) |} in
  let s1 := advance s in
  let s2 := done s1 (with_accounts (db s) (set_balance_rows accountId v (accounts_tbl (db s))))
                 (UpdateBalance accountId v) in
  updateAccountBalance accountId userId amount accountType operation note s
  = (tt, done s2 (with_history (db s2) (history_tbl (db s2) ++ [e])) (InsertHistory [e])).
Proof.
  intros Hrow Hok v e s1 s2.
  assert (H0 : fails_at 0 s = false) by (apply Hok; lia).
  assert (H1 : fails_at 0 s1 = false)
    by (unfold s1; rewrite fails_at_advance; apply Hok; lia).
  assert (H2 : fails_at 0 s2 = false)
    by (unfold s2, s1; rewrite fails_at_done, fails_at_advance; apply Hok; lia).
  unfold updateAccountBalance, bind, select_current_balance.
  rewrite (query_ok _ s H0), Hrow.
  unfold update_balance. fold v. fold s1.
  rewrite (command_ok _ _ _ s1 H1). fold s2.
  unfold insert_history. rewrite (command_ok _ _ _ s2 H2).
  reflexivity.
Qed.

Lemma add_proper (a a' b b' : number) :
  a =n= a' -> b =n= b' -> (a + b)%js =n= (a' + b')%js.
Proof.
  destruct a, a'; try contradiction; destruct b, b'; try contradiction;
    cbv [num_eq Js.add]; auto.
  intros H1 H2. rewrite H1, H2. reflexivity.
Qed.

Lemma add_cents (k m : Z) : (cents k + cents m)%js =n= cents (k + m).
Proof. cbv [num_eq Js.add cents]. unfold Qeq, Qplus. simpl. lia. Qed.

Lemma neg_cents (m : Z) : neg (cents m) = cents (- m).
Proof. reflexivity. Qed.

(** The change an "add" makes is undone by the "remove" of the same
    amount, before any rounding. *)
Lemma delta_cents (m : Z) (accountType : AccountType) (operation : Operation) :
  exists d : Z,
    delta (cents m) accountType operation = cents d /\
    delta (cents m) accountType
          (match operation with op_add => op_remove | op_remove => op_add end)
    = cents (- d).
Proof.
  destruct accountType, operation; cbn [delta]; rewrite ?neg_cents;
    first [ exists m; split; reflexivity
          | exists (- m)%Z; split; [reflexivity | rewrite Z.opp_involutive; reflexivity] ].
Qed.

(** The posting when the account cannot be read. *)
Lemma updateAccountBalance_unreadable (s : Supabase) (accountId userId : string)
    (amount : number) (accountType : AccountType) (operation : Operation)
    (note : option string) :
  fst (select_current_balance accountId s) = Error ->
  updateAccountBalance accountId userId amount accountType operation note s
  = (tt, advance s).
Proof.
  intros H. unfold updateAccountBalance, bind.
  destruct (select_current_balance accountId s) as [r s1] eqn:E.
  simpl in H. subst r.
  unfold select_current_balance, query in E.
  destruct (fails_at 0 s); inversion E; reflexivity.
Qed.


(** C8, as amended. For a starting balance and an amount [>= 0] that are
    whole numbers of hundredths and every account type: an "add" followed by
    the "remove" of the same amount, every request going through, leaves the
    balance the account started with. *)
Theorem add_then_remove_restores_two_decimals
    (s : Supabase) (accountId userId : string) (a : Account) (k m : Z)
    (accountType : AccountType) (note1 note2 : option string) :
  (0 <= m)%Z ->
  filter (has_id accountId) (accounts_tbl (db s)) = [a] ->
  current_balance a = cents k ->
  no_failure 6 s ->
  let s1 := snd (updateAccountBalance accountId userId (cents m) accountType
                                      op_add note1 s) in
  let s2 := snd (updateAccountBalance accountId userId (cents m) accountType
                                      op_remove note2 s1) in
  exists v : number, db_balance (db s2) accountId = Some v /\ v =n= cents k.
Proof.
  intros _ Hrow Hb Hok s1 s2.
  assert (Hok3 : no_failure 3 s) by (intros i Hi; apply Hok; lia).
  pose proof (updateAccountBalance_ok s accountId userId a (cents m) accountType
                op_add note1 Hrow Hok3) as E1.
  cbv zeta in E1. fold s1 in E1.
  set (v1 := round2 (current_balance a + delta (cents m) accountType op_add)%js) in *.
  assert (Hs1 : s1 = snd (updateAccountBalance accountId userId (cents m)
                            accountType op_add note1 s)) by reflexivity.
  rewrite E1 in Hs1. cbn [snd] in Hs1.
  assert (Hrow1 : filter (has_id accountId) (accounts_tbl (db s1)) = [with_balance a v1]).
  { rewrite Hs1. cbn [done db with_history with_accounts accounts_tbl].
    rewrite filter_set_balance, Hrow. unfold set_balance_rows. cbn [map].
    rewrite (filter_single_has_id _ _ _ Hrow). reflexivity. }
  assert (Hok1 : no_failure 3 s1).
  { rewrite Hs1. intros i Hi. rewrite !fails_at_done, fails_at_advance.
    apply Hok. lia. }
  pose proof (updateAccountBalance_ok s1 accountId userId (with_balance a v1)
                (cents m) accountType op_remove note2 Hrow1 Hok1) as E2.
  cbv zeta in E2.
  set (v2 := round2 (current_balance (with_balance a v1)
                     + delta (cents m) accountType op_remove)%js) in *.
  exists v2. split.
  - unfold s2. rewrite E2. cbn [snd done db with_history accounts_tbl].
    apply (db_balance_update (db s1) accountId v2 (with_balance a v1)).
    apply filter_single_find. exact Hrow1.
  - unfold v2, v1. cbn [current_balance with_balance]. rewrite Hb.
    destruct (delta_cents m accountType op_add) as [d [Ed Ed']].
    rewrite Ed, Ed'.
    eapply num_eq_trans; [| apply (round2_cents k)].
    apply round2_proper.
    eapply num_eq_trans.
    + apply add_proper; [| apply num_eq_refl].
      eapply num_eq_trans; [apply round2_proper, add_cents | apply round2_cents].
    + eapply num_eq_trans; [apply add_cents |].
      replace (k + d + - d)%Z with k by lia. apply num_eq_refl.
Qed.

(** C9. When the account cannot be fetched (the request fails, or it does
    not find exactly one row), the posting returns without sending any
    further request: the database and the writes performed are what they
    were. *)
Theorem posting_skipped_when_account_unreadable
    (s : Supabase) (accountId userId : string) (amount : number)
    (accountType : AccountType) (operation : Operation) (note : option string) :
  fst (select_current_balance accountId s) = Error ->
  let r := updateAccountBalance accountId userId amount accountType operation note s in
  fst r = tt /\ db (snd r) = db s /\ writes (snd r) = writes s
  /\ outcomes (snd r) = List.tl (outcomes s).
Proof.
  intros H r. unfold r.
  rewrite (updateAccountBalance_unreadable _ _ _ _ _ _ _ H).
  repeat split.
Qed.

(** ** Transfers *)

Lemma truthy_string_true (x : string) : truthy_string x = true <-> x <> EmptyString.
Proof.
  unfold truthy_string. rewrite negb_true_iff. apply String.eqb_neq.
Qed.

Lemma check_transfer_accepted (st : TransferForm) (from to : Account) (A : number) :
  check_transfer st = Accepted from to A ->
  find (has_id (transferFromId st)) (accounts st) = Some from
  /\ find (has_id (transferToId st)) (accounts st) = Some to
  /\ id from = transferFromId st /\ id to = transferToId st
  /\ transferFromId st <> transferToId st
  /\ A = transferAmount st /\ isNaN A = false /\ le A (int 0) = false
  /\ currency from = currency to
  /\ transferFromId st <> EmptyString /\ transferToId st <> EmptyString.
Proof.
  unfold check_transfer.
  destruct (truthy_string (transferFromId st)) eqn:Tf; [| discriminate].
  destruct (truthy_string (transferToId st)) eqn:Tt; [| discriminate].
  cbn [negb orb].
  destruct (String.eqb (transferFromId st) (transferToId st)) eqn:Esame;
    [discriminate |].
  destruct (isNaN (transferAmount st) || le (transferAmount st) (int 0)) eqn:Eamt;
    [discriminate |].
  destruct (find (has_id (transferFromId st)) (accounts st)) as [f |] eqn:Ef;
    [| discriminate].
  destruct (find (has_id (transferToId st)) (accounts st)) as [t |] eqn:Et;
    [| discriminate].
  destruct (String.eqb (currency f) (currency t)) eqn:Ecur; [| discriminate].
  cbn [negb]. intros H. inversion H; subst.
  apply orb_false_iff in Eamt. destruct Eamt as [En El].
  apply find_some in Ef, Et. unfold has_id in Ef, Et.
  destruct Ef as [_ Ef], Et as [_ Et].
  apply String.eqb_eq in Ef, Et, Ecur. apply String.eqb_neq in Esame.
  apply truthy_string_true in Tf, Tt.
  repeat split; auto.
Qed.

Section AcceptedTransfer.

Variables (now : string) (st : TransferForm) (from to : Account) (A : number).

Lemma perform_transfer_ok (s : Supabase) :
  no_failure 4 s ->
  perform_transfer now st from to A s
  = ((Some (toast_success "Transferred"),
      transferred_accounts from to (newFromBalance from A) (newToBalance to A)
                           (accounts st)),
     after_transfer now st from to A s).
Proof.
  intros Hok.
  assert (H0 : fails_at 0 s = false) by (apply Hok; lia).
  assert (H1 : fails_at 0 (after_source from A s) = false)
    by (unfold after_source; cbv zeta; rewrite fails_at_done; apply Hok; lia).
  assert (H2 : fails_at 0 (after_target from to A s) = false)
    by (unfold after_target, after_source; cbv zeta;
        rewrite !fails_at_done; apply Hok; lia).
  assert (H3 : fails_at 0 (after_history now st from to A s) = false)
    by (unfold after_history, after_target, after_source; cbv zeta;
        rewrite !fails_at_done; apply Hok; lia).
  unfold perform_transfer, bind, update_balance, insert_history, insert_transfer.
  rewrite (command_ok _ _ _ s H0). cbn [is_error].
  change (done s _ _) with (after_source from A s).
  rewrite (command_ok _ _ _ (after_source from A s) H1). cbn [is_error].
  change (done (after_source from A s) _ _) with (after_target from to A s).
  rewrite (command_ok _ _ _ (after_target from to A s) H2).
  change (done (after_target from to A s) _ _) with (after_history now st from to A s).
  rewrite (command_ok _ _ _ (after_history now st from to A s) H3).
  reflexivity.
Qed.

Lemma perform_transfer_source_fails (s : Supabase) :
  fails_at 0 s = true ->
  perform_transfer now st from to A s
  = ((Some (toast_error "Failed to update source account"), accounts st), advance s).
Proof.
  intros H0. unfold perform_transfer, bind, update_balance.
  rewrite (command_fails _ _ _ s H0). reflexivity.
Qed.

Lemma perform_transfer_target_fails (s : Supabase) :
  fails_at 0 s = false -> fails_at 1 s = true ->
  perform_transfer now st from to A s
  = ((Some (toast_error "Failed to update target account"), accounts st),
     advance (after_source from A s)).
Proof.
  intros H0 H1.
  assert (H1' : fails_at 0 (after_source from A s) = true)
    by (unfold after_source; cbv zeta; rewrite fails_at_done; exact H1).
  unfold perform_transfer, bind, update_balance.
  rewrite (command_ok _ _ _ s H0). cbn [is_error].
  change (done s _ _) with (after_source from A s).
  rewrite (command_fails _ _ _ (after_source from A s) H1'). reflexivity.
Qed.

End AcceptedTransfer.

Lemma handleTransfer_rejected (now : string) (st : TransferForm) (s : Supabase)
    (toast : option Toast) :
  check_transfer st = Rejected toast ->
  handleTransfer now st s = ((toast, accounts st), s).
Proof. intros H. unfold handleTransfer. rewrite H. reflexivity. Qed.

Lemma handleTransfer_accepted (now : string) (st : TransferForm) (s : Supabase)
    (from to : Account) (A : number) :
  check_transfer st = Accepted from to A ->
  handleTransfer now st s = perform_transfer now st from to A s.
Proof. intros H. unfold handleTransfer. rewrite H. reflexivity. Qed.

(** What the checks of the handler turn down: a missing selection, the same
    account on both sides, an amount that is [NaN] or not above zero, an
    account that is not among the accounts of the component, two different
    currencies.  Nothing is sent to the backend then. *)
Lemma transfer_checks_reject (now : string) (st : TransferForm) (s : Supabase) :
  transferFromId st = EmptyString \/ transferToId st = EmptyString
  \/ transferFromId st = transferToId st
  \/ isNaN (transferAmount st) = true \/ le (transferAmount st) (int 0) = true
  \/ find (has_id (transferFromId st)) (accounts st) = None
  \/ find (has_id (transferToId st)) (accounts st) = None
  \/ (exists from to,
        find (has_id (transferFromId st)) (accounts st) = Some from
        /\ find (has_id (transferToId st)) (accounts st) = Some to
        /\ currency from <> currency to) ->
  exists toast, handleTransfer now st s = ((toast, accounts st), s).
Proof.
  intros H.
  destruct (check_transfer st) as [toast | from to A] eqn:E.
  - exists toast. apply handleTransfer_rejected. exact E.
  - exfalso. apply check_transfer_accepted in E.
    destruct E as (Ef & Et & If & It & Hne & HA & Hnan & Hle & Hcur & Nf & Nt).
    destruct H as [H | [H | [H | [H | [H | [H | [H | H]]]]]]];
      try congruence.
    destruct H as (f & t & Hf & Ht & Hc). congruence.
Qed.

(** C4. An accepted transfer writes in a fixed order: the source balance,
    the destination balance, the two history rows, the transfer row.  If
    the source update fails nothing is written; if the destination update
    fails after the source update went through, the source balance stays
    updated and neither history rows nor a transfer row are written. *)
Theorem transfer_write_order_and_partial_failure
    (now : string) (st : TransferForm) (from to : Account) (A : number)
    (s : Supabase) :
  check_transfer st = Accepted from to A ->
  let r := handleTransfer now st s in
  let nf := newFromBalance from A in
  let nt := newToBalance to A in
  let rows := history_rows (transfer_day now st) st from to nf nt in
  let row := transfer_row (transfer_day now st) st from to A in
  (no_failure 4 s ->
     writes (snd r)
     = (writes s ++ [UpdateBalance (id from) nf; UpdateBalance (id to) nt;
                     InsertHistory rows; InsertTransfer row])%list
     /\ List.length rows = 2%nat
     /\ history_tbl (db (snd r)) = (history_tbl (db s) ++ rows)%list
     /\ transfers_tbl (db (snd r)) = (transfers_tbl (db s) ++ [row])%list)
  /\ (fails_at 0 s = true ->
        fst (fst r) = Some (toast_error "Failed to update source account")
        /\ db (snd r) = db s /\ writes (snd r) = writes s)
  /\ (fails_at 0 s = false -> fails_at 1 s = true ->
        fst (fst r) = Some (toast_error "Failed to update target account")
        /\ writes (snd r) = (writes s ++ [UpdateBalance (id from) nf])%list
        /\ accounts_tbl (db (snd r))
           = set_balance_rows (id from) nf (accounts_tbl (db s))
        /\ history_tbl (db (snd r)) = history_tbl (db s)
        /\ transfers_tbl (db (snd r)) = transfers_tbl (db s)).
Proof.
  intros Hacc r nf nt rows row. unfold r.
  rewrite (handleTransfer_accepted now st s from to A Hacc).
  split; [| split].
  - intros Hok. rewrite (perform_transfer_ok now st from to A s Hok).
    cbn [snd]. unfold after_transfer, after_history, after_target, after_source.
    cbv zeta.
    cbn [writes db done with_transfers with_history with_accounts
         history_tbl transfers_tbl].
    rewrite <- !app_assoc. repeat split.
  - intros H0. rewrite (perform_transfer_source_fails now st from to A s H0).
    repeat split.
  - intros H0 H1. rewrite (perform_transfer_target_fails now st from to A s H0 H1).
    repeat split.
Qed.




(** ** Balance and history *)

Lemma snd_bind_ret {A : Type} (m : Request A) (s : Supabase) :
  snd ((m ;;; ret tt) s) = snd (m s).
Proof. unfold bind, ret. destruct (m s). reflexivity. Qed.

Lemma db_balance_stored (d : Database) (i : string) :
  db_balance d i <> None -> exists a, find (has_id i) (accounts_tbl d) = Some a.
Proof.
  unfold db_balance. destruct (find (has_id i) (accounts_tbl d)) as [a |].
  - intros _. exists a. reflexivity.
  - intros H. contradiction H. reflexivity.
Qed.

(** The manual correction when both of its requests go through. *)
Lemma handleBalanceUpdate_ok (now : string) (account : Account) (userId : string)
    (newBalance : number) (balanceNote : string) (s : Supabase) :
  isNaN newBalance = false ->
  no_failure 2 s ->
  let e := {| account_id := id account; entry_user_id := userId;
              balance_date := Some now; balance := newBalance;
              note := or_null balanceNote |} in
  let s1 := done s (with_accounts (db s)
                      (set_balance_rows (id account) newBalance (accounts_tbl (db s))))
                 (UpdateBalance (id account) newBalance) in
  handleBalanceUpdate now account userId newBalance balanceNote s
  = ((toast_success "Balance updated", newBalance),
     done s1 (with_history (db s1) (history_tbl (db s1) ++ [e])) (InsertHistory [e])).
Proof.
  intros Hnan Hok e s1.
  assert (H0 : fails_at 0 s = false) by (apply Hok; lia).
  assert (H1 : fails_at 0 s1 = false)
    by (unfold s1; rewrite fails_at_done; apply Hok; lia).
  unfold handleBalanceUpdate, bind, update_balance, insert_history_returning.
  rewrite Hnan, (command_ok _ _ _ s H0). cbn [is_error]. fold s1.
  rewrite (command_ok _ _ _ s1 H1). reflexivity.
Qed.

(** C5, as amended. When an expense-linked posting, a transfer or a manual
    balance correction passes its checks and all its requests go through,
    then for each account whose balance it sets, the account being stored:
    exactly one history entry is appended for that account, and the balance
    stored is the balance that entry records. *)
Theorem balance_matches_appended_history_entry
    (op : LedgerOperation) (s : Supabase) (i : string) :
  goes_ahead op s ->
  no_failure 4 s ->
  In i (mutated op) ->
  db_balance (db s) i <> None ->
  let d' := db (snd (run op s)) in
  exists e : BalanceEntry,
    history_of d' i = (history_of (db s) i ++ [e])%list
    /\ db_balance d' i = Some (balance e).
Proof.
  intros Hgo Hok Hin Hstored d'.
  destruct op as [accountId userId amount accountType operation note
                 | now st
                 | now account userId newBalance balanceNote].
  - (* expense-linked posting *)
    destruct Hin as [<- | []]. destruct Hgo as [a Hrow].
    assert (Hok3 : no_failure 3 s) by (intros j Hj; apply Hok; lia).
    pose proof (updateAccountBalance_ok s accountId userId a amount accountType
                  operation note Hrow Hok3) as E.
    cbv zeta in E. unfold d', run. rewrite E. cbn [snd].
    eexists. split.
    + unfold history_of. cbn [db done with_history with_accounts history_tbl].
      rewrite filter_app. cbn [filter account_id]. rewrite String.eqb_refl.
      reflexivity.
    + cbn [balance]. unfold db_balance.
      cbn [db done with_history with_accounts accounts_tbl].
      rewrite find_set_balance_same, (filter_single_find _ _ _ Hrow). reflexivity.
  - (* the two legs of a transfer *)
    destruct Hgo as (from & to & A & Hacc).
    pose proof (check_transfer_accepted st from to A Hacc)
      as (_ & _ & If & It & Hne & _).
    assert (Hft : id from <> id to) by congruence.
    assert (Eft : String.eqb (id from) (id to) = false) by (apply String.eqb_neq; exact Hft).
    assert (Etf : String.eqb (id to) (id from) = false)
      by (apply String.eqb_neq; congruence).
    destruct (db_balance_stored _ _ Hstored) as [a Ha].
    unfold d', run. rewrite snd_bind_ret.
    rewrite (handleTransfer_accepted now st s from to A Hacc).
    rewrite (perform_transfer_ok now st from to A s Hok). cbn [snd].
    assert (Hacct : accounts_tbl (db (after_transfer now st from to A s))
                    = set_balance_rows (id to) (newToBalance to A)
                        (set_balance_rows (id from) (newFromBalance from A)
                           (accounts_tbl (db s)))) by reflexivity.
    assert (Hhist : history_tbl (db (after_transfer now st from to A s))
                    = (history_tbl (db s)
                       ++ history_rows (transfer_day now st) st from to
                            (newFromBalance from A) (newToBalance to A))%list)
      by reflexivity.
    unfold history_of, db_balance. rewrite Hacct, Hhist, filter_app.
    cbn [mutated] in Hin. destruct Hin as [Hi | [Hi | []]]; subst i.
    + rewrite <- If in *. eexists. split.
      * unfold history_rows. cbn [filter account_id].
        rewrite String.eqb_refl, Etf. reflexivity.
      * cbn [balance]. rewrite find_set_balance_other by congruence.
        rewrite find_set_balance_same, Ha. reflexivity.
    + rewrite <- It in *. eexists. split.
      * unfold history_rows. cbn [filter account_id].
        rewrite String.eqb_refl, Eft. reflexivity.
      * cbn [balance]. rewrite find_set_balance_same.
        rewrite find_set_balance_other by exact Hft.
        rewrite Ha. reflexivity.
  - (* manual correction *)
    destruct Hin as [<- | []]. cbn [goes_ahead] in Hgo.
    destruct (db_balance_stored _ _ Hstored) as [a Ha].
    assert (Hok2 : no_failure 2 s) by (intros j Hj; apply Hok; lia).
    pose proof (handleBalanceUpdate_ok now account userId newBalance balanceNote
                  s Hgo Hok2) as E.
    cbv zeta in E. unfold d', run. rewrite snd_bind_ret, E. cbn [snd].
    eexists. split.
    + unfold history_of. cbn [db done with_history with_accounts history_tbl].
      rewrite filter_app. cbn [filter account_id]. rewrite String.eqb_refl.
      reflexivity.
    + cbn [balance]. unfold db_balance.
      cbn [db done with_history with_accounts accounts_tbl].
      rewrite find_set_balance_same, Ha. reflexivity.
Qed.

(** ** Exchange rates *)

Lemma strict_eq_num_eq (a b : number) : strict_eq a b = true -> a =n= b.
Proof.
  destruct a, b; cbn [strict_eq num_eq]; try discriminate; auto.
  apply Qeq_bool_iff.
Qed.

(** Dividing by one changes nothing. *)
Lemma div_one (x r : number) : r =n= int 1 -> (x / r)%js =n= x.
Proof.
  destruct r as [| | | q]; cbn [num_eq int]; try contradiction.
  intros Hq. change (inject_Z 1) with 1 in Hq.
  assert (Hq0 : Qeq_bool q 0 = false).
  { apply not_true_is_false. intros H. apply Qeq_bool_iff in H. lra. }
  assert (Hpos : Qle_bool 0 q = true) by (apply Qle_bool_iff; lra).
  destruct x as [| | | p]; cbn [Js.div negative inf_of_sign xorb num_eq].
  - exact I.
  - rewrite Hpos. exact I.
  - rewrite Hpos. exact I.
  - rewrite Hq0. cbn [num_eq]. rewrite Hq. field.
Qed.

Lemma truthy_one (r : number) : r =n= int 1 -> truthy r = true.
Proof.
  destruct r as [| | | q]; cbn [num_eq int truthy]; try contradiction.
  intros Hq. change (inject_Z 1) with 1 in Hq.
  apply negb_true_iff, not_true_is_false. intros H.
  apply Qeq_bool_iff in H. lra.
Qed.


(** The key [find] returns has a rate equal to one. *)
Lemma first_unit_key_rate (rates : Rates) (k : string) :
  first_unit_key rates = Some k ->
  exists r, rates_get rates k = Some r /\ r =n= int 1.
Proof.
  unfold first_unit_key. intros H. apply find_some in H. destruct H as [_ H].
  destruct (rates_get rates k) as [r |]; [| discriminate].
  exists r. split; [reflexivity | apply strict_eq_num_eq; exact H].
Qed.

(** [convertAmount] with the lookup written out. *)
Lemma convertAmount_unfold (x : number) (fromCurrency : string) (rates : Rates) :
  convertAmount x fromCurrency rates
  = if negb (truthy_string fromCurrency)
       || match first_unit_key rates with
          | Some k => String.eqb fromCurrency k
          | None => false
          end
    then x
    else
      match rates_get rates fromCurrency with
      | Some rate => if negb (truthy rate) then x else (x / rate)%js
      | None => if inherited fromCurrency then NaN else x
      end.
Proof.
  unfold convertAmount, rates_lookup.
  destruct (negb (truthy_string fromCurrency)
            || match first_unit_key rates with
               | Some k => String.eqb fromCurrency k
               | None => false
               end); [reflexivity |].
  destruct (rates_get rates fromCurrency) as [r |]; [reflexivity |].
  destruct (inherited fromCurrency); [| reflexivity].
  cbn [truthy_value negb to_number]. destruct x; reflexivity.
Qed.

Lemma convertAmount_refines (x : number) (fromCurrency : string) (rates : Rates) :
  convertAmount x fromCurrency rates =n= convertAmount_by_cases x fromCurrency rates.
Proof.
  rewrite convertAmount_unfold. unfold convertAmount_by_cases, truthy_string.
  destruct (String.eqb fromCurrency EmptyString) eqn:Eempty; cbn [negb orb].
  - apply num_eq_refl.
  - destruct (first_unit_key rates) as [k |] eqn:Ek.
    + destruct (String.eqb fromCurrency k) eqn:Efk.
      * apply String.eqb_eq in Efk. subst k.
        destruct (first_unit_key_rate rates fromCurrency Ek) as (r & Hr & H1).
        rewrite Hr, (truthy_one r H1). apply num_eq_sym, div_one. exact H1.
      * destruct (rates_get rates fromCurrency) as [r |]; [| apply num_eq_refl].
        destruct (truthy r); apply num_eq_refl.
    + destruct (rates_get rates fromCurrency) as [r |]; [| apply num_eq_refl].
      destruct (truthy r); apply num_eq_refl.
Qed.





Lemma rates_get_set_same (rates : Rates) (k : string) (v : number) :
  rates_get (rates_set rates k v) k = Some v.
Proof.
  induction rates as [| [k' v'] rest IH]; cbn [rates_set rates_get].
  - rewrite String.eqb_refl. reflexivity.
  - destruct (String.eqb k' k) eqn:E; cbn [rates_get]; rewrite E; [reflexivity | exact IH].
Qed.

(** An assignment to a key other than ["__proto__"] is read back. *)
Lemma rates_get_assign_same (rates : Rates) (k : string) (v : number) :
  k <> "__proto__"%string -> rates_get (rates_assign rates k v) k = Some v.
Proof.
  intros Hk. unfold rates_assign. apply String.eqb_neq in Hk. rewrite Hk.
  destruct (rates_get rates k); apply rates_get_set_same.
Qed.

(** A refreshed cache holds the identity entry of its base, unless the
    base is ["__proto__"]. *)
Lemma getExchangeRates_identity (provider : Provider) (now : Z) (base : string)
    (cache : option RatesCache) (rates : Rates) :
  base <> "__proto__"%string ->
  cached_rates now base cache = None ->
  fst (getExchangeRates provider now (Some base) cache) = Returned rates ->
  rates_get rates base = Some (int 1).
Proof.
  unfold getExchangeRates. intros Hbase Hmiss. rewrite Hmiss.
  destruct (fetchRates provider base) as [fetched |]; cbn [fst]; [| discriminate].
  intros H. inversion H. apply rates_get_assign_same. exact Hbase.
Qed.

(** An uncaught failure of the transport: the call throws and the cache
    stays as it is. *)
Lemma getExchangeRates_transport_error
    (provider : Provider) (now : Z) (base : string) (cache : option RatesCache) :
  cached_rates now base cache = None ->
  provider base = NetworkError ->
  getExchangeRates provider now (Some base) cache = (Thrown, cache).
Proof.
  intros Hmiss Hnet. unfold getExchangeRates, fetchRates.
  rewrite Hmiss, Hnet. reflexivity.
Qed.

(** C6, as amended. When no cache entry can be used and the provider
    answers with a non-success response, [fetchRates] returns an empty
    mapping and [getExchangeRates] returns, and caches, the mapping that
    holds exactly the identity entry of the base currency; for the base
    ["__proto__"], whose assignment adds no key, that mapping is empty.  It
    does not throw. *)
Theorem getExchangeRates_non_success_response
    (provider : Provider) (now : Z) (base : string) (cache : option RatesCache)
    (status : Z) (body : Body) :
  cached_rates now base cache = None ->
  provider base = HttpResponse false status body ->
  let mapping : Rates :=
    if String.eqb base "__proto__" then [] else [(base, int 1)] in
  fetchRates provider base = Returned []
  /\ getExchangeRates provider now (Some base) cache
     = (Returned mapping,
        Some {| base := base; rates := mapping; fetchedAt := now |}).
Proof.
  intros Hmiss Hresp mapping.
  assert (F : fetchRates provider base = Returned [])
    by (unfold fetchRates; rewrite Hresp; reflexivity).
  split; [exact F |].
  unfold getExchangeRates. rewrite Hmiss, F.
  unfold rates_assign, mapping. cbn [rates_get rates_set].
  destruct (String.eqb base "__proto__"); reflexivity.
Qed.

(** * Worked instances *)

Import Sample.
Local Open Scope string_scope.

Lemma no_failure_reliable (n : nat) (d : Database) (w : list Write) :
  no_failure n (mkSupabase d [] w).
Proof. intros i _. unfold fails_at. cbn [outcomes]. destruct i; reflexivity. Qed.



(** The same posting, evaluated: the balance becomes 950.00. *)
Example posting_bank_add_950 :
  exists v,
    db_balance
      (db (snd (updateAccountBalance "acc-1" "user-1" (Fin 50) bank_account op_add
                                     None (backend []))))
      "acc-1" = Some v
    /\ v =n= cents 95000.
Proof. eexists. split; [vm_compute; reflexivity | vm_compute; reflexivity]. Qed.

(** C8, as claimed, fails: on the card owing 0.00, an "add" of 0.125
    followed by the "remove" of 0.125 leaves 0.01. *)
Lemma add_then_remove_not_inverse :
  let s1 := snd (updateAccountBalance "acc-6" "user-1" (Fin (125 # 1000))
                                      credit_card op_add None (backend [])) in
  let s2 := snd (updateAccountBalance "acc-6" "user-1" (Fin (125 # 1000))
                                      credit_card op_remove None s1) in
  db_balance (db (backend [])) "acc-6" = Some (cents 0)
  /\ exists v, db_balance (db s2) "acc-6" = Some v
               /\ v =n= cents 1 /\ ~ v =n= cents 0.
Proof.
  cbv zeta. split; [reflexivity |].
  eexists. split; [vm_compute; reflexivity |].
  split; [vm_compute; reflexivity | vm_compute; discriminate].
Qed.

(** C8 at work: 50.00 added to and removed from the account holding
    1000.00. *)
Lemma add_then_remove_restores_two_decimals_witness :
  exists v : number,
    db_balance
      (db (snd (updateAccountBalance "acc-1" "user-1" (cents 5000) bank_account
                  op_remove None
                  (snd (updateAccountBalance "acc-1" "user-1" (cents 5000)
                          bank_account op_add None (backend []))))))
      "acc-1" = Some v
    /\ v =n= cents 100000.
Proof.
  apply (add_then_remove_restores_two_decimals (backend []) "acc-1" "user-1"
           savings 100000 5000 bank_account None None).
  - lia.
  - reflexivity.
  - reflexivity.
  - apply no_failure_reliable.
Defined.

(** C9 at work: a posting on an account that is not stored. *)
Lemma posting_skipped_when_account_unreadable_witness :
  let r := updateAccountBalance "acc-0" "user-1" (cents 5000) bank_account op_add
                                None (backend []) in
  fst r = tt /\ db (snd r) = db (backend []) /\ writes (snd r) = writes (backend [])
  /\ outcomes (snd r) = List.tl (outcomes (backend [])).
Proof.
  apply (posting_skipped_when_account_unreadable (backend []) "acc-0" "user-1"
           (cents 5000) bank_account op_add None).
  reflexivity.
Defined.


(** In binary64 the difference of two whole numbers of hundredths need not
    be one: 1000.10 - 50.30 is not the number 949.80, which is why the
    balances of a transfer are stated for the store, whose column keeps two
    decimal places, and not for the component. *)
Example transfer_difference_in_binary64 :
  Binary64.newFromBalance (Binary64.decimal 100010 2) (Binary64.decimal 5030 2)
  <> Binary64.decimal 94980 2.
Proof.
  intros H.
  assert (E : PrimFloat.eqb
                (Binary64.newFromBalance (Binary64.decimal 100010 2)
                                         (Binary64.decimal 5030 2))
                (Binary64.decimal 94980 2) = false) by (vm_compute; reflexivity).
  rewrite H in E. vm_compute in E. discriminate.
Qed.


(** C3 fails on the code: the row button opens the dialog on a closed
    account, which the source list of the dialog does not offer; an active
    account of the same currency is offered as destination, and the
    transfer is carried out. *)
Theorem transfer_from_closed_account_goes_through :
  let opened := openTransfer "2026-01-15" (Some "acc-5") table in
  let st := choose "acc-3" (cents 5000) opened in
  let r := handleTransfer "2026-01-15" st (backend []) in
  status dormant = closed
  /\ ~ In dormant (fromAccountOptions opened)
  /\ transferFromId opened = id dormant
  /\ In checking (toAccountOptions opened)
  /\ check_transfer st = Accepted dormant checking (cents 5000)
  /\ fst (fst r) = Some (toast_success "Transferred")
  /\ writes (snd r)
     = [ UpdateBalance "acc-5" (cents 40000 - cents 5000)%js;
         UpdateBalance "acc-3" (cents 20000 + cents 5000)%js;
         InsertHistory
           (history_rows "2026-01-15" st dormant checking
              (cents 40000 - cents 5000)%js (cents 20000 + cents 5000)%js);
         InsertTransfer (transfer_row "2026-01-15" st dormant checking (cents 5000)) ].
Proof.
  cbv zeta. split; [reflexivity |]. split.
  - vm_compute. intuition discriminate.
  - repeat split; try reflexivity.
    vm_compute. right. right. left. reflexivity.
Qed.

(** The same happens with an amount of [+Infinity], which is neither [NaN]
    nor at most zero. *)
Example transfer_of_infinite_amount_accepted :
  check_transfer (dialog "acc-1" "acc-3" PInf) = Accepted savings checking PInf.
Proof. reflexivity. Qed.

(** C4 at work: 50.00 from savings to checking, with every request going
    through, with the first one failing, and with the second one failing. *)
Lemma transfer_write_order_and_partial_failure_witness :
  let st := dialog "acc-1" "acc-3" (cents 5000) in
  let nf := newFromBalance savings (cents 5000) in
  let nt := newToBalance checking (cents 5000) in
  writes (snd (handleTransfer "2026-01-15" st (backend [])))
  = [ UpdateBalance "acc-1" nf; UpdateBalance "acc-3" nt;
      InsertHistory (history_rows "2026-01-15" st savings checking nf nt);
      InsertTransfer (transfer_row "2026-01-15" st savings checking (cents 5000)) ]
  /\ db (snd (handleTransfer "2026-01-15" st (backend [true]))) = database
  /\ (accounts_tbl (db (snd (handleTransfer "2026-01-15" st (backend [false; true]))))
      = set_balance_rows "acc-1" nf all_accounts
      /\ history_tbl (db (snd (handleTransfer "2026-01-15" st (backend [false; true]))))
         = []).
Proof.
  cbv zeta.
  pose proof (fun s => transfer_write_order_and_partial_failure "2026-01-15"
                         (dialog "acc-1" "acc-3" (cents 5000))
                         savings checking (cents 5000) s eq_refl) as T.
  cbv zeta in T.
  split; [| split].
  - destruct (T (backend [])) as (Hall & _ & _).
    destruct (Hall (no_failure_reliable 4 database [])) as (Hw & _).
    exact Hw.
  - destruct (T (backend [true])) as (_ & Hsrc & _).
    destruct (Hsrc eq_refl) as (_ & Hdb & _). exact Hdb.
  - destruct (T (backend [false; true])) as (_ & _ & Htgt).
    destruct (Htgt eq_refl eq_refl) as (_ & _ & Hacc & Hhist & _).
    split; [exact Hacc | exact Hhist].
Defined.

(** C5, as claimed, fails: when the destination update of a transfer
    fails, the balance of the source has been set and no history entry has
    been appended for it. *)
Lemma source_updated_without_history_entry :
  let s := backend [false; true] in
  let op := TransferLegs "2026-01-15" (dialog "acc-1" "acc-3" (cents 5000)) in
  let d' := db (snd (run op s)) in
  goes_ahead op s
  /\ db_balance (db s) "acc-1" = Some (cents 100000)
  /\ (exists v, db_balance d' "acc-1" = Some v
                /\ v =n= cents 95000 /\ ~ v =n= cents 100000)
  /\ history_of d' "acc-1" = history_of (db s) "acc-1"
  /\ history_tbl d' = [].
Proof.
  cbv zeta. split.
  - exists savings, checking, (cents 5000). reflexivity.
  - split; [reflexivity |]. split.
    + eexists. split; [vm_compute; reflexivity |].
      split; [vm_compute; reflexivity | vm_compute; discriminate].
    + split; reflexivity.
Qed.

(** C5 at work: the source leg of the same transfer when every request
    goes through. *)
Lemma balance_matches_appended_history_entry_witness :
  let op := TransferLegs "2026-01-15" (dialog "acc-1" "acc-3" (cents 5000)) in
  let d' := db (snd (run op (backend []))) in
  exists e : BalanceEntry,
    history_of d' "acc-1" = (history_of database "acc-1" ++ [e])%list
    /\ db_balance d' "acc-1" = Some (balance e).
Proof.
  cbv zeta.
  apply (balance_matches_appended_history_entry
           (TransferLegs "2026-01-15" (dialog "acc-1" "acc-3" (cents 5000)))
           (backend []) "acc-1").
  - exists savings, checking, (cents 5000). reflexivity.
  - apply no_failure_reliable.
  - left. reflexivity.
  - discriminate.
Defined.

(** C6, as claimed, fails: with the provider answering 503, the mapping
    returned is not empty and holds the identity entry of the base; with the
    provider out of reach, the call throws. *)
Lemma failed_fetch_not_an_empty_mapping :
  getExchangeRates unavailable 0 (Some "PHP") None
  = (Returned [("PHP", int 1)],
     Some {| base := "PHP"; rates := [("PHP", int 1)]; fetchedAt := 0 |})
  /\ [("PHP", int 1)] <> ([] : Rates)
  /\ rates_get [("PHP", int 1)] "PHP" = Some (int 1)
  /\ fst (getExchangeRates unreachable 0 (Some "PHP") None) = Thrown.
Proof. repeat split; try reflexivity. discriminate. Qed.

(** For the base ["__proto__"] the mapping returned is empty. *)
Example failed_fetch_for_proto_base :
  fst (getExchangeRates unavailable 0 (Some "__proto__") None) = Returned [].
Proof. reflexivity. Qed.

(** C6 at work: the provider answers 503 and nothing is cached. *)
Lemma getExchangeRates_non_success_response_witness :
  fetchRates unavailable "PHP" = Returned []
  /\ getExchangeRates unavailable 0 (Some "PHP") None
     = (Returned [("PHP", int 1)],
        Some {| base := "PHP"; rates := [("PHP", int 1)]; fetchedAt := 0 |}).
Proof.
  exact (getExchangeRates_non_success_response unavailable 0 "PHP" None 503%Z
           InvalidJson eq_refl eq_refl).
Defined.



(** The conversion of the first instance, evaluated: 5000 pesos. *)
Example convert_100_dollars :
  convertAmount (int 100) "USD" [("USD", Fin (2 # 100)); ("PHP", int 1)]
  =n= int 5000.
Proof. vm_compute. reflexivity. Qed.



(** ** Further paths *)

(** Editing an account through the form stores the balance of the form and
    appends no history entry. *)
Lemma account_edit_sets_balance_without_history
    (now newId : string) (account data : Account) (opened_date : string)
    (s : Supabase) (a : Account) :
  fails_at 0 s = false ->
  find (has_id (id account)) (accounts_tbl (db s)) = Some a ->
  let r := onSubmit now newId (Some account) data opened_date s in
  fst r = toast_success "Account updated"
  /\ db_balance (db (snd r)) (id account) = Some (current_balance data)
  /\ history_tbl (db (snd r)) = history_tbl (db s).
Proof.
  intros H0 Ha r. unfold r, onSubmit, bind, update_account.
  rewrite (command_ok _ _ _ s H0). cbn [is_error fst snd ret].
  repeat split.
  unfold db_balance. cbn [db done with_accounts accounts_tbl].
  induction (accounts_tbl (db s)) as [| x rows IH]; [discriminate |].
  cbn [map find] in *. destruct (has_id (id account) x) eqn:E.
  - unfold has_id at 1. cbn [id]. unfold has_id in E. rewrite E. reflexivity.
  - rewrite E. apply IH. exact Ha.
Qed.

Example account_edit_without_history :
  let data := with_balance savings (cents 250000) in
  let r := onSubmit "2026-01-15" "acc-7" (Some savings) data "" (backend []) in
  db_balance (db (snd r)) "acc-1" = Some (cents 250000)
  /\ history_tbl (db (snd r)) = [].
Proof. split; reflexivity. Qed.

(** Deleting an expense whose linked account cannot be read: the expense
    is deleted, the user is told so, and accounts and history are left as
    they were. *)
Lemma expense_deletion_succeeds_without_posting
    (deleteId : string) (expenses : list Expense) (accounts : list AccountOption)
    (e : Expense) (linked : string) (acct : AccountOption) (s : Supabase) :
  find (fun x => String.eqb (expense_id x) deleteId) expenses = Some e ->
  expense_account_id e = Some linked ->
  truthy_string linked = true ->
  find (fun x => String.eqb (option_id x) linked) accounts = Some acct ->
  fails_at 0 s = false ->
  (fails_at 1 s = true
   \/ forall a, filter (has_id (option_id acct)) (accounts_tbl (db s)) <> [a]) ->
  let r := handleDelete (Some deleteId) expenses accounts s in
  fst (fst r) = Some (toast_success "Expense deleted")
  /\ accounts_tbl (db (snd r)) = accounts_tbl (db s)
  /\ history_tbl (db (snd r)) = history_tbl (db s)
  /\ writes (snd r) = (writes s ++ [DeleteExpense deleteId])%list.
Proof.
  intros He Hl Ht Hacct H0 Hunread r.
  unfold r, handleDelete, bind, delete_expense.
  rewrite He, (command_ok _ _ _ s H0). cbn [is_error].
  rewrite Hl, Ht, Hacct.
  set (s1 := done s _ _).
  assert (Herr : fst (select_current_balance (option_id acct) s1) = Error).
  { unfold select_current_balance, query.
    destruct (fails_at 0 s1) eqn:F; [reflexivity |]. cbn [fst].
    destruct Hunread as [H1 | Hrows].
    - unfold s1 in F. rewrite fails_at_done in F. congruence.
    - unfold s1. cbn [db done with_expenses accounts_tbl].
      destruct (filter (has_id (option_id acct)) (accounts_tbl (db s)))
        as [| a [| b rest]] eqn:E; try reflexivity.
      exfalso. apply (Hrows a). reflexivity. }
  rewrite (updateAccountBalance_unreadable s1 _ _ _ _ _ _ Herr).
  cbn [fst snd ret]. repeat split.
Qed.

(** * Further properties *)

Local Close Scope string_scope.

(** ** Sums of numbers *)

#[local] Instance num_eq_Equivalence : Equivalence num_eq.
Proof.
  split.
  - exact num_eq_refl.
  - exact num_eq_sym.
  - exact num_eq_trans.
Qed.

#[local] Instance add_Proper : Proper (num_eq ==> num_eq ==> num_eq) Js.add.
Proof. intros a a' Ha b b' Hb. apply add_proper; assumption. Qed.

Lemma fold_add_proper {A : Type} (f g : A -> number) (l : list A) (a b : number) :
  (forall x, In x l -> f x =n= g x) -> a =n= b ->
  fold_left (fun sum x => (sum + f x)%js) l a
  =n= fold_left (fun sum x => (sum + g x)%js) l b.
Proof.
  revert a b. induction l as [| x l IH]; intros a b Hfg Hab; cbn [fold_left].
  - exact Hab.
  - apply IH.
    + intros y Hy. apply Hfg. right. exact Hy.
    + rewrite Hab, (Hfg x) by (left; reflexivity). reflexivity.
Qed.

(** ** Totals in the reporting currency *)

(** With the mapping a failed fetch leaves, an amount is not converted,
    unless its currency code is the name of a member of
    [Object.prototype]. *)
Lemma convertAmount_identity_table (x : number) (fromCurrency b : string) :
  inherited fromCurrency = false ->
  convertAmount x fromCurrency (rates_assign [] b (int 1)) =n= x.
Proof.
  intros Hown. rewrite convertAmount_refines.
  unfold convertAmount_by_cases.
  destruct (String.eqb fromCurrency EmptyString); [reflexivity |].
  unfold rates_assign. cbn [rates_get rates_set].
  destruct (String.eqb b "__proto__"); cbn [rates_get].
  - rewrite Hown. reflexivity.
  - destruct (String.eqb b fromCurrency).
    + change (truthy (int 1)) with true. cbv iota. apply div_one. reflexivity.
    + rewrite Hown. reflexivity.
Qed.

(** When the provider answers with a non-success response and nothing
    usable is cached, the totals computed with the rates handed out are the
    plain sums of the amounts, for items whose currency codes are not names
    of members of [Object.prototype]: nothing is converted. *)
Theorem totals_unconverted_when_provider_down
    (provider : Provider) (now : Z) (b : string) (cache : option RatesCache)
    (status : Z) (body : Body) (items : list Item) :
  cached_rates now b cache = None ->
  provider b = HttpResponse false status body ->
  Forall (fun item => inherited (item_currency item) = false) items ->
  exists rates : Rates,
    fst (getExchangeRates provider now (Some b) cache) = Returned rates
    /\ sumConverted items rates
       =n= fold_left (fun sum item => (sum + item_amount item)%js) items (int 0).
Proof.
  intros Hmiss Hresp Hown. exists (rates_assign [] b (int 1)). split.
  - unfold getExchangeRates, fetchRates. rewrite Hmiss, Hresp. reflexivity.
  - unfold sumConverted. apply fold_add_proper; [| reflexivity].
    intros item Hin. apply convertAmount_identity_table.
    rewrite Forall_forall in Hown. exact (Hown item Hin).
Qed.

(** ** The cache of rates *)

Lemma rates_get_set_other (rates : Rates) (k k' : string) (v : number) :
  k <> k' -> rates_get (rates_set rates k v) k' = rates_get rates k'.
Proof.
  intros Hk. induction rates as [| [k0 v0] rest IH]; cbn [rates_set rates_get].
  - apply String.eqb_neq in Hk. rewrite Hk. reflexivity.
  - destruct (String.eqb k0 k) eqn:E; cbn [rates_get].
    + apply String.eqb_eq in E. subst k0.
      apply String.eqb_neq in Hk. rewrite Hk. reflexivity.
    + rewrite IH. reflexivity.
Qed.

Lemma rates_get_assign_other (rates : Rates) (k k' : string) (v : number) :
  k <> k' -> rates_get (rates_assign rates k v) k' = rates_get rates k'.
Proof.
  intros Hk. unfold rates_assign.
  destruct (rates_get rates k); [apply rates_get_set_other; exact Hk |].
  destruct (String.eqb k "__proto__");
    [reflexivity | apply rates_get_set_other; exact Hk].
Qed.

Lemma cached_rates_fresh (t0 t1 : Z) (b : string) (r : Rates) :
  cached_rates t1 b (Some {| base := b; rates := r; fetchedAt := t0 |})
  = if (t1 - t0 <? CACHE_TTL)%Z then Some r else None.
Proof. unfold cached_rates. rewrite String.eqb_refl. reflexivity. Qed.

(** What a call that had to fetch leaves behind. *)
Lemma getExchangeRates_miss_returned (provider : Provider) (t0 : Z) (b : string)
    (cache cache' : option RatesCache) (r : Rates) :
  cached_rates t0 b cache = None ->
  getExchangeRates provider t0 (Some b) cache = (Returned r, cache') ->
  cache' = Some {| base := b; rates := r; fetchedAt := t0 |}
  /\ exists fetched, fetchRates provider b = Returned fetched
                     /\ r = rates_assign fetched b (int 1).
Proof.
  unfold getExchangeRates. intros Hmiss. rewrite Hmiss.
  destruct (fetchRates provider b) as [fetched |]; [| discriminate].
  intros H. inversion H; subst. split; [reflexivity |].
  exists fetched. split; reflexivity.
Qed.

(** After a call that fetched at [t0], a call for the same base before
    [t0 + CACHE_TTL] returns the same mapping and leaves the cache as it
    is, whatever the provider would answer; from [t0 + CACHE_TTL] on the
    entry is not used, and if the fetch then throws the old entry stays. *)
Theorem getExchangeRates_cache_window
    (p1 p2 : Provider) (t0 t1 : Z) (b : string)
    (cache cache' : option RatesCache) (r : Rates) :
  cached_rates t0 b cache = None ->
  getExchangeRates p1 t0 (Some b) cache = (Returned r, cache') ->
  ((t1 - t0 < CACHE_TTL)%Z ->
     getExchangeRates p2 t1 (Some b) cache' = (Returned r, cache'))
  /\ ((CACHE_TTL <= t1 - t0)%Z ->
        fst (getExchangeRates p2 t1 (Some b) cache')
        = fst (getExchangeRates p2 t1 (Some b) None)
        /\ (fetchRates p2 b = Thrown ->
            snd (getExchangeRates p2 t1 (Some b) cache') = cache')).
Proof.
  intros Hmiss Hcall.
  destruct (getExchangeRates_miss_returned p1 t0 b cache cache' r Hmiss Hcall)
    as [-> _].
  split.
  - intros Hlt. unfold getExchangeRates. rewrite cached_rates_fresh.
    apply Z.ltb_lt in Hlt. rewrite Hlt. reflexivity.
  - intros Hge. unfold getExchangeRates. rewrite cached_rates_fresh.
    assert (Hnlt : (t1 - t0 <? CACHE_TTL)%Z = false) by (apply Z.ltb_ge; exact Hge).
    rewrite Hnlt. cbn [cached_rates].
    destruct (fetchRates p2 b); split; try reflexivity; discriminate.
Qed.

(** A failed fetch is cached like any other: after a non-success response
    at [t0], every call for that base (other than ["__proto__"]) before
    [t0 + CACHE_TTL] returns the mapping that holds only the identity
    entry, even if the provider would answer by then. *)
Theorem failed_fetch_is_cached
    (p1 p2 : Provider) (t0 t1 : Z) (b : string) (cache : option RatesCache)
    (status : Z) (body : Body) :
  b <> "__proto__"%string ->
  cached_rates t0 b cache = None ->
  p1 b = HttpResponse false status body ->
  (t1 - t0 < CACHE_TTL)%Z ->
  fst (getExchangeRates p2 t1 (Some b)
         (snd (getExchangeRates p1 t0 (Some b) cache)))
  = Returned [(b, int 1)].
Proof.
  intros Hb Hmiss Hresp Hlt.
  unfold getExchangeRates at 2. unfold fetchRates. rewrite Hmiss, Hresp.
  unfold rates_assign. apply String.eqb_neq in Hb.
  cbn [negb snd rates_get rates_set]. rewrite Hb.
  unfold getExchangeRates. rewrite cached_rates_fresh.
  apply Z.ltb_lt in Hlt. rewrite Hlt. reflexivity.
Qed.

(** The cache holds one base at a time: once a call for another base has
    fetched, nothing cached can be used for the first base any more. *)
Theorem cache_holds_one_base
    (provider : Provider) (t1 t2 : Z) (b1 b2 : string)
    (cache cache' : option RatesCache) (r : Rates) :
  b1 <> b2 ->
  cached_rates t1 b2 cache = None ->
  getExchangeRates provider t1 (Some b2) cache = (Returned r, cache') ->
  cached_rates t2 b1 cache' = None.
Proof.
  intros Hb Hmiss Hcall.
  destruct (getExchangeRates_miss_returned provider t1 b2 cache cache' r Hmiss Hcall)
    as [-> _].
  unfold cached_rates.
  assert (E : String.eqb b2 b1 = false) by (apply String.eqb_neq; congruence).
  rewrite E. reflexivity.
Qed.

Lemma convertAmount_unit_rate (x : number) (b : string) (rates : Rates) :
  rates_get rates b = Some (int 1) -> convertAmount x b rates =n= x.
Proof.
  intros Hb. rewrite (convertAmount_refines x b rates).
  unfold convertAmount_by_cases. rewrite Hb.
  destruct (String.eqb b EmptyString); [reflexivity |].
  change (truthy (int 1)) with true. cbv iota. apply div_one. reflexivity.
Qed.

(** For a base other than ["__proto__"], starting from no entry or from an
    entry that holds the identity rate of its base: every mapping
    [getExchangeRates] returns holds the identity rate of the base asked
    for, an amount in that base is converted to itself, and the cache is
    left with that property. *)
Theorem getExchangeRates_keeps_identity
    (provider : Provider) (now : Z) (b : string) (cache : option RatesCache) :
  b <> "__proto__"%string ->
  cache_has_identity cache ->
  cache_has_identity (snd (getExchangeRates provider now (Some b) cache))
  /\ forall r, fst (getExchangeRates provider now (Some b) cache) = Returned r ->
       rates_get r b = Some (int 1)
       /\ forall x, convertAmount x b r =n= x.
Proof.
  intros Hb Hinv.
  assert (Hcore :
    cache_has_identity (snd (getExchangeRates provider now (Some b) cache))
    /\ forall r, fst (getExchangeRates provider now (Some b) cache) = Returned r ->
         rates_get r b = Some (int 1)).
  { unfold getExchangeRates.
    destruct (cached_rates now b cache) as [cached |] eqn:Ehit.
    - split; [exact Hinv |]. cbn [fst]. intros r Hr. inversion Hr; subst r.
      destruct cache as [[cb cr ct] |]; [| discriminate].
      cbn [cached_rates] in Ehit. cbn [cache_has_identity base rates] in Hinv.
      destruct (String.eqb cb b) eqn:Eb; [| discriminate].
      destruct (now - ct <? CACHE_TTL)%Z; [| discriminate].
      apply String.eqb_eq in Eb. inversion Ehit. subst. exact Hinv.
    - destruct (fetchRates provider b) as [fetched |]; cbn [fst snd].
      + split.
        * cbn [cache_has_identity base rates].
          apply rates_get_assign_same. exact Hb.
        * intros r Hr. inversion Hr. apply rates_get_assign_same. exact Hb.
      + split; [exact Hinv | discriminate]. }
  destruct Hcore as [Hc Hr]. split; [exact Hc |].
  intros r Hret. split; [exact (Hr r Hret) |].
  intros x. apply convertAmount_unit_rate. exact (Hr r Hret).
Qed.

(** The rates fetched are handed out as the provider sent them, except the
    rate of the base itself, which is one whatever the provider sent (the
    base being other than ["__proto__"]). *)
Theorem getExchangeRates_fetched_rates
    (provider : Provider) (now : Z) (b : string) (cache : option RatesCache)
    (status : Z) (fetched : Rates) :
  b <> "__proto__"%string ->
  cached_rates now b cache = None ->
  provider b = HttpResponse true status (JsonData (Some fetched)) ->
  exists r,
    getExchangeRates provider now (Some b) cache
    = (Returned r, Some {| base := b; rates := r; fetchedAt := now |})
    /\ rates_get r b = Some (int 1)
    /\ forall k, k <> b -> rates_get r k = rates_get fetched k.
Proof.
  intros Hb Hmiss Hresp. exists (rates_assign fetched b (int 1)).
  split; [| split].
  - unfold getExchangeRates, fetchRates. rewrite Hmiss, Hresp. reflexivity.
  - apply rates_get_assign_same. exact Hb.
  - intros k Hk. apply rates_get_assign_other. congruence.
Qed.

(** ** The totals of the accounts table and of the dashboard *)

Lemma Qeq_bool_zero_eq (p p' : Q) : p == p' -> Qeq_bool p 0 = Qeq_bool p' 0.
Proof.
  intros H. apply eq_true_iff_eq. rewrite !Qeq_bool_iff, H. reflexivity.
Qed.

Lemma Qle_bool_zero_eq (p p' : Q) : p == p' -> Qle_bool 0 p = Qle_bool 0 p'.
Proof.
  intros H. apply eq_true_iff_eq. rewrite !Qle_bool_iff, H. reflexivity.
Qed.

Lemma div_proper_l (a a' r : number) : a =n= a' -> (a / r)%js =n= (a' / r)%js.
Proof.
  destruct a as [| | | p], a' as [| | | p']; try contradiction;
    intros H; try reflexivity.
  cbv [num_eq] in H. destruct r as [| | | q]; try reflexivity.
  cbn [Js.div negative].
  rewrite (Qeq_bool_zero_eq p p' H), (Qle_bool_zero_eq p p' H).
  destruct (Qeq_bool q 0); [reflexivity |].
  cbv [num_eq]. rewrite H. reflexivity.
Qed.

Lemma convertAmount_proper (x y : number) (c : string) (rates : Rates) :
  x =n= y -> convertAmount x c rates =n= convertAmount y c rates.
Proof.
  intros H. rewrite !convertAmount_unfold.
  destruct (negb (truthy_string c)
            || match first_unit_key rates with
               | Some k => String.eqb c k
               | None => false
               end); [exact H |].
  destruct (rates_get rates c) as [r |].
  - destruct (truthy r); cbn [negb]; [| exact H].
    apply div_proper_l. exact H.
  - destruct (inherited c); [reflexivity | exact H].
Qed.

Lemma or_zero_same (n : number) : isNaN n = false -> or_zero n =n= n.
Proof.
  unfold or_zero. destruct n as [| | | q]; try discriminate; try reflexivity.
  intros _. cbn [truthy]. destruct (Qeq_bool q 0) eqn:E; cbn [negb]; [| reflexivity].
  apply Qeq_bool_iff in E. cbv [int num_eq]. rewrite E. reflexivity.
Qed.

Lemma fold_left_map_items {A B : Type} (g : A -> B) (f : number -> B -> number)
    (l : list A) (a : number) :
  fold_left f (map g l) a = fold_left (fun sum x => f sum (g x)) l a.
Proof. revert a. induction l as [| x l IH]; intros a; cbn; [reflexivity | apply IH]. Qed.

(** The accounts table and the dashboard show the same totals: as long as
    no balance is [NaN], "Total Balance" and "Total Credit Used" of the
    table are the bank total and the credit total of the dashboard computed
    from the active accounts. *)
Theorem table_totals_match_dashboard (accounts : list Account) (rates : Rates) :
  (forall a, In a accounts -> isNaN (current_balance a) = false) ->
  totalBankBalance accounts rates
  =n= dashboardBankBalance (activeAccounts accounts) rates
  /\ totalCreditUsed accounts rates
     =n= totalCreditOwed (activeAccounts accounts) rates.
Proof.
  intros Hnan.
  assert (H : forall type,
             converted_total type accounts rates
             =n= sumConverted (account_items type (activeAccounts accounts)) rates).
  { intros type. unfold converted_total, sumConverted, account_items.
    rewrite fold_left_map_items. cbn [item_amount item_currency].
    apply (fold_add_proper
             (fun a => convertAmount (current_balance a) (or_PHP (currency a)) rates)
             (fun a => convertAmount (or_zero (current_balance a))
                                     (or_PHP (currency a)) rates)).
    - intros a Ha. apply convertAmount_proper. symmetry. apply or_zero_same.
      apply Hnan. apply filter_In in Ha. destruct Ha as [Ha _].
      unfold activeAccounts in Ha. apply filter_In in Ha. tauto.
    - reflexivity. }
  split; apply H.
Qed.


(** ** The transfer dialog and its handler *)

Lemma find_by_id_unique (l : list Account) (t : Account) :
  NoDup (map id l) -> In t l -> find (has_id (id t)) l = Some t.
Proof.
  induction l as [| x l IH]; intros Hnd Hin; [contradiction |].
  cbn [map] in Hnd. inversion Hnd as [| ? ? Hx Hl]; subst.
  cbn [find]. destruct Hin as [-> | Hin].
  - unfold has_id. rewrite String.eqb_refl. reflexivity.
  - destruct (has_id (id t) x) eqn:E.
    + unfold has_id in E. apply String.eqb_eq in E.
      exfalso. apply Hx. rewrite E. apply in_map. exact Hin.
    + apply IH; assumption.
Qed.

(** Every destination the dialog offers is an active account of the
    currency of the source, other than the source, and passes the checks of
    the handler: with a source that is among the accounts, ids that are
    distinct and not empty, and an amount that is a number above zero, the
    transfer to it is accepted. *)
Theorem offered_destination_is_accepted
    (st : TransferForm) (from t : Account) (A : number) :
  NoDup (map id (accounts st)) ->
  find (has_id (transferFromId st)) (accounts st) = Some from ->
  transferFromId st <> EmptyString ->
  In t (toAccountOptions st) ->
  id t <> EmptyString ->
  isNaN A = false -> le A (int 0) = false ->
  check_transfer (choose (id t) A st) = Accepted from t A
  /\ status t = active /\ currency t = currency from /\ id t <> id from.
Proof.
  intros Hnd Hfrom Hfne Hin Htne Hnan Hle.
  unfold toAccountOptions in Hin. rewrite Hfrom in Hin.
  apply filter_In in Hin. destruct Hin as [Hin Hcond].
  apply andb_true_iff in Hcond. destruct Hcond as [Hcond Hcur].
  apply andb_true_iff in Hcond. destruct Hcond as [Hid Hact].
  apply negb_true_iff in Hid. apply String.eqb_eq in Hcur.
  assert (Hidf : id from = transferFromId st).
  { apply find_some in Hfrom. destruct Hfrom as [_ H].
    unfold has_id in H. apply String.eqb_eq in H. exact H. }
  split; [| split; [| split]];
    [| destruct (status t); [reflexivity | discriminate]
     | exact Hcur
     | apply String.eqb_neq in Hid; congruence].
  unfold check_transfer, choose.
  cbn [transferFromId transferToId transferAmount accounts].
  apply truthy_string_true in Hfne, Htne. rewrite Hfne, Htne. cbn [negb orb].
  rewrite String.eqb_sym, Hid, Hnan, Hle. cbn [orb].
  rewrite Hfrom, (find_by_id_unique (accounts st) t Hnd Hin).
  rewrite Hcur, String.eqb_refl. reflexivity.
Qed.

(** Once both balance updates of a transfer went through, the user is told
    that the transfer succeeded whatever becomes of the two inserts: a
    failed insert of the history rows leaves the history as it was, and the
    transfer row is still written unless its own insert fails. *)
Theorem transfer_ignores_insert_failures
    (now : string) (st : TransferForm) (from to : Account) (A : number)
    (s : Supabase) :
  check_transfer st = Accepted from to A ->
  fails_at 0 s = false -> fails_at 1 s = false ->
  let r := handleTransfer now st s in
  let nf := newFromBalance from A in
  let nt := newToBalance to A in
  fst (fst r) = Some (toast_success "Transferred")
  /\ accounts_tbl (db (snd r))
     = set_balance_rows (id to) nt (set_balance_rows (id from) nf (accounts_tbl (db s)))
  /\ history_tbl (db (snd r))
     = (if fails_at 2 s then history_tbl (db s)
        else history_tbl (db s)
             ++ history_rows (transfer_day now st) st from to nf nt)%list
  /\ transfers_tbl (db (snd r))
     = (if fails_at 3 s then transfers_tbl (db s)
        else transfers_tbl (db s)
             ++ [transfer_row (transfer_day now st) st from to A])%list.
Proof.
  intros Hacc H0 H1 r nf nt. unfold r.
  rewrite (handleTransfer_accepted now st s from to A Hacc).
  unfold perform_transfer, bind, update_balance.
  rewrite (command_ok _ _ _ s H0). cbn [is_error].
  set (s1 := done s _ _).
  assert (H1' : fails_at 0 s1 = false)
    by (unfold s1; rewrite fails_at_done; exact H1).
  rewrite (command_ok _ _ _ s1 H1'). cbn [is_error].
  set (s2 := done s1 _ _).
  assert (F2 : fails_at 0 s2 = fails_at 2 s)
    by (unfold s2, s1; rewrite !fails_at_done; reflexivity).
  unfold insert_history, insert_transfer, command. rewrite F2.
  destruct (fails_at 2 s).
  - assert (F3 : fails_at 0 (advance s2) = fails_at 3 s)
      by (unfold s2, s1; rewrite fails_at_advance, !fails_at_done; reflexivity).
    rewrite F3. destruct (fails_at 3 s); repeat split.
  - set (s3 := done s2 _ _).
    assert (F3 : fails_at 0 s3 = fails_at 3 s)
      by (unfold s3, s2, s1; rewrite !fails_at_done; reflexivity).
    rewrite F3. destruct (fails_at 3 s); repeat split.
Qed.

(** ** The two writes of a posting *)

(** When the account is read, the posting sends both writes whatever
    becomes of the first: the balance is stored unless the update fails,
    and the history entry is appended unless the insert fails.  So a failed
    update with a successful insert leaves a history entry whose balance
    was never stored. *)
Theorem posting_writes_are_independent
    (s : Supabase) (accountId userId : string) (a : Account) (amount : number)
    (accountType : AccountType) (operation : Operation) (note : option string) :
  filter (has_id accountId) (accounts_tbl (db s)) = [a] ->
  fails_at 0 s = false ->
  let v := round2 (current_balance a + delta amount accountType operation)%js in
  let e := {| account_id := accountId; entry_user_id := userId;
              balance_date := None; balance := v;
              note := Some (or_default note (default_note operation)) |} in
  let d' := db (snd (updateAccountBalance accountId userId amount accountType
                                          operation note s)) in
  accounts_tbl d'
  = (if fails_at 1 s then accounts_tbl (db s)
     else set_balance_rows accountId v (accounts_tbl (db s)))
  /\ history_tbl d'
     = (if fails_at 2 s then history_tbl (db s)
        else history_tbl (db s) ++ [e])%list.
Proof.
  intros Hrow H0 v e d'. unfold d'.
  unfold updateAccountBalance, bind, select_current_balance.
  rewrite (query_ok _ s H0), Hrow. fold v.
  unfold update_balance, insert_history, command.
  rewrite fails_at_advance.
  destruct (fails_at 1 s) eqn:F1.
  - rewrite !fails_at_advance. destruct (fails_at 2 s); split; reflexivity.
  - rewrite fails_at_done, fails_at_advance.
    destruct (fails_at 2 s); split; reflexivity.
Qed.

(** ** Failures of a manual correction *)

(** A manual correction with a value that is not a number sends nothing; if
    the update fails, nothing is written, no history insert is sent and the
    balance on display stays; if the update goes through and the insert of
    the history entry fails, the new balance is stored and displayed, no
    entry is appended, and the user is told so. *)
Theorem manual_correction_failures
    (now : string) (account : Account) (userId : string)
    (newBalance : number) (balanceNote : string) (s : Supabase) :
  let r := handleBalanceUpdate now account userId newBalance balanceNote s in
  (isNaN newBalance = true ->
     r = ((toast_error "Enter a valid balance", current_balance account), s))
  /\ (isNaN newBalance = false -> fails_at 0 s = true ->
        r = ((toast_error "Failed to update balance", current_balance account),
             advance s))
  /\ (isNaN newBalance = false -> fails_at 0 s = false -> fails_at 1 s = true ->
        fst r = (toast_error "Balance updated but history failed", newBalance)
        /\ accounts_tbl (db (snd r))
           = set_balance_rows (id account) newBalance (accounts_tbl (db s))
        /\ history_tbl (db (snd r)) = history_tbl (db s)).
Proof.
  intros r. unfold r, handleBalanceUpdate, bind. split; [| split].
  - intros Hnan. rewrite Hnan. reflexivity.
  - intros Hnan H0. rewrite Hnan. unfold update_balance.
    rewrite (command_fails _ _ _ s H0). reflexivity.
  - intros Hnan H0 H1. rewrite Hnan. unfold update_balance.
    rewrite (command_ok _ _ _ s H0). cbn [is_error].
    set (s1 := done s _ _).
    assert (H1' : fails_at 0 s1 = true)
      by (unfold s1; rewrite fails_at_done; exact H1).
    unfold insert_history_returning. rewrite (command_fails _ _ _ s1 H1').
    repeat split.
Qed.

(** ** Creating an account *)

Lemma find_app_none {A : Type} (p : A -> bool) (l l' : list A) :
  find p l = None -> find p (l ++ l') = find p l'.
Proof.
  induction l as [| x l IH]; cbn [find app]; [reflexivity |].
  destruct (p x); [discriminate | exact IH].
Qed.

(** Creating an account whose id is new to the store: if the insert fails,
    nothing is written; if it goes through and so does the insert of the
    opening entry, the account is stored with the balance of the form and
    its history is that one entry, recording the same balance. *)
Theorem account_creation_opens_history
    (now newId : string) (data : Account) (opened_date : string) (s : Supabase) :
  find (has_id newId) (accounts_tbl (db s)) = None ->
  history_of (db s) newId = [] ->
  let r := onSubmit now newId None data opened_date s in
  (fails_at 0 s = true ->
     fst r = toast_error "Failed to create account"
     /\ db (snd r) = db s /\ writes (snd r) = writes s)
  /\ (no_failure 2 s ->
        fst r = toast_success "Account created"
        /\ db_balance (db (snd r)) newId = Some (current_balance data)
        /\ exists e, history_of (db (snd r)) newId = [e]
                     /\ balance e = current_balance data
                     /\ note e = Some "Opening balance"%string).
Proof.
  intros Hnew Hhist r. unfold r, onSubmit, bind, insert_account. split.
  - intros H0. rewrite (command_fails _ _ _ s H0). repeat split.
  - intros Hok.
    assert (H0 : fails_at 0 s = false) by (apply Hok; lia).
    rewrite (command_ok _ _ _ s H0).
    set (s1 := done s _ _).
    assert (H1 : fails_at 0 s1 = false)
      by (unfold s1; rewrite fails_at_done; apply Hok; lia).
    unfold insert_history. rewrite (command_ok _ _ _ s1 H1).
    cbn [fst snd ret]. split; [reflexivity |]. split.
    + unfold db_balance, s1.
      cbn [db done with_history with_accounts accounts_tbl].
      rewrite find_app_none by exact Hnew. 
      cbn [find new_row]. unfold has_id at 1. cbn [id].
      rewrite String.eqb_refl. reflexivity.
    + eexists. split.
      * unfold history_of in *. unfold s1.
        cbn [db done with_history with_accounts history_tbl].
        rewrite filter_app, Hhist. cbn [filter account_id app].
        rewrite String.eqb_refl. reflexivity.
      * split; reflexivity.
Qed.

(** ** Pages *)

Lemma totalPages_value (n : nat) :
  totalPages n = Z.max 1 ((Z.of_nat n + 9) / 10).
Proof.
  unfold totalPages, PAGE_SIZE, Qceiling, Qdiv, Qinv, Qmult, Qopp, Qfloor, inject_Z.
  cbn [Z.of_nat Qnum Qden Pos.of_succ_nat Pos.succ Pos.mul].
  f_equal.
  assert (E : (- (Z.of_nat n * 1) = - Z.of_nat n)%Z) by lia.
  rewrite E.
  pose proof (Z.div_mod (- Z.of_nat n) 10 ltac:(lia)) as D1.
  pose proof (Z.mod_pos_bound (- Z.of_nat n) 10 ltac:(lia)) as B1.
  pose proof (Z.div_mod (Z.of_nat n + 9) 10 ltac:(lia)) as D2.
  pose proof (Z.mod_pos_bound (Z.of_nat n + 9) 10 ltac:(lia)) as B2.
  lia.
Qed.

Lemma length_slice {A : Type} (start end_ : nat) (l : list A) :
  List.length (slice start end_ l) = (Nat.min end_ (List.length l) - start)%nat.
Proof. unfold slice. rewrite length_skipn, length_firstn. reflexivity. Qed.

Lemma pages_up_to {A : Type} (rows : list A) (n : nat) :
  List.concat (map (paginated rows) (seq 0 n)) = firstn (n * PAGE_SIZE) rows.
Proof.
  induction n as [| n IH].
  - reflexivity.
  - rewrite seq_S, map_app, concat_app, IH. cbn [map List.concat Nat.add].
    rewrite app_nil_r. unfold paginated, slice.
    replace (firstn (n * PAGE_SIZE) rows)
      with (firstn (n * PAGE_SIZE) (firstn ((n + 1) * PAGE_SIZE) rows)).
    + rewrite firstn_skipn. f_equal. lia.
    + rewrite firstn_firstn. f_equal. lia.
Qed.

(** The pages [0] to [totalPages - 1] of the table, one after the other,
    are the rows, and no page has more than [PAGE_SIZE] rows. *)
Theorem pages_partition_rows {A : Type} (rows : list A) :
  List.concat (map (paginated rows) (seq 0 (Z.to_nat (totalPages (List.length rows)))))
  = rows
  /\ forall page, (List.length (paginated rows page) <= PAGE_SIZE)%nat.
Proof.
  split.
  - rewrite pages_up_to. apply firstn_all2.
    rewrite totalPages_value. unfold PAGE_SIZE.
    pose proof (Z.div_mod (Z.of_nat (List.length rows) + 9) 10 ltac:(lia)) as D.
    pose proof (Z.mod_pos_bound (Z.of_nat (List.length rows) + 9) 10 ltac:(lia)) as B.
    lia.
  - intros page. unfold paginated. rewrite length_slice. lia.
Qed.


(** ** Realtime changes *)

Lemma existsb_id (i : string) (l : list Account) :
  existsb (fun a => String.eqb (id a) i) l = true <-> In i (map id l).
Proof.
  rewrite existsb_exists, in_map_iff. split.
  - intros (a & Ha & E). apply String.eqb_eq in E. exists a. split; assumption.
  - intros (a & E & Ha). exists a. split; [exact Ha | apply String.eqb_eq; exact E].
Qed.

Lemma map_id_onUpdate (record : Account) (prev : list Account) :
  map id (onUpdate record prev) = map id prev.
Proof.
  unfold onUpdate. rewrite map_map. apply map_ext. intros a.
  destruct (String.eqb (id a) (id record)) eqn:E; [| reflexivity].
  apply String.eqb_eq in E. symmetry. exact E.
Qed.

Lemma onDelete_ids (record : Account) (prev : list Account) (i : string) :
  In i (map id (onDelete record prev)) <-> In i (map id prev) /\ i <> id record.
Proof.
  unfold onDelete. rewrite !in_map_iff. split.
  - intros (a & E & Ha). apply filter_In in Ha. destruct Ha as [Ha Hne].
    apply negb_true_iff, String.eqb_neq in Hne. split; [| congruence].
    exists a. split; assumption.
  - intros [(a & E & Ha) Hne]. exists a. split; [exact E |].
    apply filter_In. split; [exact Ha |].
    apply negb_true_iff, String.eqb_neq. congruence.
Qed.

Lemma ids_distinct_after_filter (keep : Account -> bool) (rows : list Account) :
  NoDup (map id rows) -> NoDup (map id (filter keep rows)).
Proof.
  intros Hnd. induction rows as [| x rows IH]; cbn [map filter]; [constructor |].
  cbn [map] in Hnd. apply NoDup_cons_iff in Hnd. destruct Hnd as [Hx Hrows].
  destruct (keep x); [| exact (IH Hrows)].
  cbn [map]. apply NoDup_cons; [| exact (IH Hrows)].
  intros Hin. apply Hx. apply in_map_iff in Hin. destruct Hin as (y & E & Hy).
  apply filter_In in Hy. rewrite <- E. apply in_map. tauto.
Qed.

(** The three realtime handlers keep the ids of the component's accounts
    distinct; an update changes no id and a deletion removes its id. *)
Theorem realtime_keeps_ids_distinct (record : Account) (prev : list Account) :
  NoDup (map id prev) ->
  NoDup (map id (onInsert record prev))
  /\ NoDup (map id (onUpdate record prev))
  /\ NoDup (map id (onDelete record prev))
  /\ map id (onUpdate record prev) = map id prev
  /\ ~ In (id record) (map id (onDelete record prev)).
Proof.
  intros Hnd. split; [| split; [| split; [| split]]].
  - unfold onInsert.
    destruct (existsb (fun a => String.eqb (id a) (id record)) prev) eqn:E;
      [exact Hnd |].
    cbn [map]. constructor; [| exact Hnd].
    intros Hin. apply existsb_id in Hin. congruence.
  - rewrite map_id_onUpdate. exact Hnd.
  - unfold onDelete. apply ids_distinct_after_filter. exact Hnd.
  - apply map_id_onUpdate.
  - intros Hin. apply onDelete_ids in Hin. destruct Hin as [_ Hne]. congruence.
Qed.

Lemma filter_all {A : Type} (p : A -> bool) (l : list A) :
  (forall x, In x l -> p x = true) -> filter p l = l.
Proof.
  induction l as [| x l IH]; intros H; cbn [filter]; [reflexivity |].
  rewrite (H x) by (left; reflexivity). f_equal. apply IH.
  intros y Hy. apply H. right. exact Hy.
Qed.

(** An insert event that arrives twice adds its account once, and the
    delete event of an account that was added by an insert event gives the
    accounts back as they were. *)
Theorem realtime_insert_delete_round_trip (record : Account) (prev : list Account) :
  onInsert record (onInsert record prev) = onInsert record prev
  /\ (~ In (id record) (map id prev) ->
      onDelete record (onInsert record prev) = prev).
Proof.
  split.
  - unfold onInsert.
    destruct (existsb (fun a => String.eqb (id a) (id record)) prev) eqn:E.
    + rewrite E. reflexivity.
    + cbn [existsb]. rewrite String.eqb_refl. reflexivity.
  - intros Hnew. unfold onInsert.
    destruct (existsb (fun a => String.eqb (id a) (id record)) prev) eqn:E.
    + apply existsb_id in E. contradiction.
    + unfold onDelete. cbn [filter]. rewrite String.eqb_refl. cbn [negb].
      apply filter_all. intros a Ha.
      apply negb_true_iff, String.eqb_neq. intros Eq. apply Hnew.
      rewrite <- Eq. apply in_map. exact Ha.
Qed.

(** ** The figures of the dashboard *)

Lemma gt_Fin (a b : Q) : gt (Fin a) (Fin b) = true <-> b < a.
Proof.
  cbn [gt]. rewrite negb_true_iff. split.
  - intros H. apply Qnot_le_lt. intros Hle. apply Qle_bool_iff in Hle. congruence.
  - intros H. apply not_true_is_false. intros Hle. apply Qle_bool_iff in Hle.
    apply (Qlt_not_le _ _ H). exact Hle.
Qed.

(** The trend for finite totals, computed without rounding. *)
Lemma trend_value (month prevMonth : Q) :
  exists q : Q,
    trend (Fin month) (Fin prevMonth) = Fin q
    /\ (0 < prevMonth -> (0 < q <-> prevMonth < month))
    /\ (prevMonth <= 0 -> q = (if gt (Fin month) (int 0) then inject_Z 100 else inject_Z 0)).
Proof.
  unfold trend. destruct (gt (Fin prevMonth) (int 0)) eqn:G.
  - apply gt_Fin in G. change (inject_Z 0) with 0 in G.
    assert (Hnz : Qeq_bool prevMonth 0 = false).
    { apply not_true_is_false. intros H. apply Qeq_bool_iff in H. lra. }
    cbn [Js.sub Js.neg Js.add Js.div Js.mul int]. rewrite Hnz. cbn [Js.mul].
    eexists. split; [reflexivity |]. split.
    + intros _. change (inject_Z 100) with 100.
      assert (Hinv : 0 < / prevMonth) by (apply Qinv_lt_0_compat; exact G).
      split.
      * intros H. apply Qnot_le_lt. intros Hle.
        assert (Hn : (month + - prevMonth) / prevMonth * 100 <= 0).
        { unfold Qdiv.
          setoid_replace ((month + - prevMonth) * / prevMonth * 100)
            with (- ((prevMonth - month) * (/ prevMonth * 100))) by ring.
          assert (0 <= (prevMonth - month) * (/ prevMonth * 100)).
          { apply Qmult_le_0_compat; [lra |].
            apply Qmult_le_0_compat; lra. }
          lra. }
        lra.
      * intros H. unfold Qdiv.
        apply Qmult_lt_0_compat; [| reflexivity].
        apply Qmult_lt_0_compat; [lra | exact Hinv].
    + intros Hle. lra.
  - assert (Hle : prevMonth <= 0).
    { apply Qnot_lt_le. intros H. apply gt_Fin in H. change (inject_Z 0) with 0 in G.
      unfold int in G. change (inject_Z 0) with 0 in G. congruence. }
    destruct (gt (Fin month) (int 0)) eqn:Gm.
    + exists (inject_Z 100). split; [reflexivity |]. split; [lra | reflexivity].
    + exists (inject_Z 0). split; [reflexivity |]. split; [lra | reflexivity].
Qed.

(** For finite totals the trend is never [NaN]: the code does not divide
    by zero.  With a total of the month before above zero, the trend is
    above zero exactly when the total has grown; otherwise it is [100] if
    there is a total above zero now and [0] if not. *)
Theorem trend_never_NaN_and_signed (month prevMonth : Q) :
  isNaN (trend (Fin month) (Fin prevMonth)) = false
  /\ (0 < prevMonth ->
      (gt (trend (Fin month) (Fin prevMonth)) (int 0) = true <-> prevMonth < month))
  /\ (prevMonth <= 0 ->
      trend (Fin month) (Fin prevMonth)
      = if gt (Fin month) (int 0) then int 100 else int 0).
Proof.
  destruct (trend_value month prevMonth) as (q & Hq & Hsign & Hflat).
  rewrite Hq. split; [reflexivity |]. split.
  - intros Hp. unfold int. rewrite gt_Fin. exact (Hsign Hp).
  - intros Hle. rewrite (Hflat Hle).
    destruct (gt (Fin month) (int 0)); reflexivity.
Qed.

(** For finite totals that are not negative, the share of the revenue is a
    finite number between [0] and [100]. *)
Theorem revenuePercent_bounds (revenueMonth expensesTotal : Q) :
  0 <= revenueMonth -> 0 <= expensesTotal ->
  exists q : Q,
    revenuePercent (Fin revenueMonth) (Fin expensesTotal) = Fin q
    /\ 0 <= q /\ q <= 100.
Proof.
  intros Hr He. unfold revenuePercent. cbn [Js.add].
  destruct (gt (Fin (revenueMonth + expensesTotal)) (int 0)) eqn:G.
  - apply gt_Fin in G. change (inject_Z 0) with 0 in G.
    assert (Hnz : Qeq_bool (revenueMonth + expensesTotal) 0 = false).
    { apply not_true_is_false. intros H. apply Qeq_bool_iff in H. lra. }
    cbn [Js.div Js.mul int]. rewrite Hnz. cbn [Js.mul].
    eexists. split; [reflexivity |]. change (inject_Z 100) with 100.
    assert (Hinv : 0 < / (revenueMonth + expensesTotal))
      by (apply Qinv_lt_0_compat; exact G).
    assert (Hq : 0 <= revenueMonth / (revenueMonth + expensesTotal)).
    { unfold Qdiv. apply Qmult_le_0_compat; lra. }
    assert (Hq1 : revenueMonth / (revenueMonth + expensesTotal) <= 1).
    { apply Qle_shift_div_r; [exact G | lra]. }
    split; lra.
  - exists (inject_Z 50). split; [reflexivity |].
    change (inject_Z 50) with 50. split; lra.
Qed.

(** ** The component and the store *)

(** A correction made from the accounts table with a value that is a whole
    number of hundredths, or that is turned down for not being a number,
    leaves the component with the accounts as they are stored, whether the
    update and the insert of the history entry go through or not; a value
    that is turned down or an update that fails changes neither. *)
Theorem table_correction_in_sync
    (now : string) (accounts : list Account) (userId : string)
    (balanceAccount : Account) (newBalance : number) (balanceNote : string)
    (s : Supabase) :
  accounts_tbl (db s) = accounts ->
  isNaN newBalance = true \/ (exists n : Z, newBalance = cents n) ->
  let r := handleBalanceUpdate_table now accounts userId (Some balanceAccount)
                                     newBalance balanceNote s in
  accounts_tbl (db (snd r)) = snd (fst r)
  /\ (isNaN newBalance = false -> fails_at 0 s = false ->
      snd (fst r) = set_balance_rows (id balanceAccount) newBalance accounts
      /\ history_tbl (db (snd r))
         = (if fails_at 1 s then history_tbl (db s)
            else history_tbl (db s)
                 ++ [ {| account_id := id balanceAccount;
                         entry_user_id := userId;
                         balance_date := Some now;
                         balance := newBalance;
                         note := or_null balanceNote |} ])%list)
  /\ (isNaN newBalance = true \/ fails_at 0 s = true -> db (snd r) = db s).
Proof.
  intros Hsync _ r. unfold r, handleBalanceUpdate_table, bind.
  destruct (isNaN newBalance) eqn:Hnan.
  - cbn [ret fst snd]. split; [exact Hsync |]. split; [discriminate | reflexivity].
  - unfold update_balance, command. destruct (fails_at 0 s) eqn:H0; cbn [is_error].
    + cbn [ret fst snd advance db]. split; [exact Hsync |].
      split; [discriminate | reflexivity].
    + unfold insert_history, command. rewrite fails_at_done.
      destruct (fails_at 1 s); cbn [ret fst snd advance done db with_accounts
                                     with_history accounts_tbl history_tbl];
        (split; [rewrite Hsync; reflexivity |]);
        (split; [intros _ _; split; reflexivity |]);
        intros [H | H]; discriminate.
Qed.

(** ** The chart of the balance history *)

Section Sorting.

Context {A : Type} (le : A -> A -> bool).

Lemma insert_by_perm (x : A) (l : list A) : Permutation (insert_by le x l) (x :: l).
Proof.
  induction l as [| y l IH]; cbn [insert_by]; [reflexivity |].
  destruct (le x y); [reflexivity |].
  etransitivity; [apply perm_skip; exact IH | apply perm_swap].
Qed.

Lemma sort_by_perm (l : list A) : Permutation (sort_by le l) l.
Proof.
  induction l as [| x l IH]; cbn [sort_by fold_right]; [reflexivity |].
  etransitivity; [apply insert_by_perm | apply perm_skip; exact IH].
Qed.

Hypothesis le_total : forall x y, le x y = true \/ le y x = true.

Lemma insert_by_sorted (x : A) (l : list A) :
  Sorted (fun a b => le a b = true) l ->
  Sorted (fun a b => le a b = true) (insert_by le x l).
Proof.
  induction l as [| y l IH]; intros Hs; cbn [insert_by].
  - repeat constructor.
  - destruct (le x y) eqn:E.
    + constructor; [exact Hs | constructor; exact E].
    + inversion Hs as [| ? ? Hl Hhd]; subst.
      constructor; [apply IH; exact Hl |].
      destruct l as [| z l]; cbn [insert_by].
      * constructor. destruct (le_total x y); congruence.
      * destruct (le x z); constructor.
        -- destruct (le_total x y); congruence.
        -- inversion Hhd. assumption.
Qed.

Lemma sort_by_sorted (l : list A) :
  Sorted (fun a b => le a b = true) (sort_by le l).
Proof.
  induction l as [| x l IH]; cbn [sort_by fold_right]; [constructor |].
  apply insert_by_sorted. exact IH.
Qed.

(** Elements that are not above one another keep their order. *)
Lemma insert_by_stable (P : A -> bool) (x : A) (l : list A) :
  (forall a b, P a = true -> P b = true -> le a b = true) ->
  filter P (insert_by le x l) = filter P (x :: l).
Proof.
  intros HP. induction l as [| y l IH]; cbn [insert_by]; [reflexivity |].
  destruct (le x y) eqn:E; [reflexivity |].
  cbn [filter] in *. destruct (P y) eqn:Py.
  - rewrite IH. destruct (P x) eqn:Px; [| reflexivity].
    rewrite (HP x y Px Py) in E. discriminate.
  - exact IH.
Qed.

Lemma sort_by_stable (P : A -> bool) (l : list A) :
  (forall a b, P a = true -> P b = true -> le a b = true) ->
  filter P (sort_by le l) = filter P l.
Proof.
  intros HP. induction l as [| x l IH]; cbn [sort_by fold_right]; [reflexivity |].
  rewrite (insert_by_stable P x _ HP). cbn [filter].
  fold (sort_by le l). rewrite IH. reflexivity.
Qed.

End Sorting.

(** For a comparison of the locale that puts any two dates in order one way
    or the other: the points of the chart are the entries of the history,
    each once, in ascending order of their dates, and entries of one date
    keep the order they have in the history. *)
Theorem chartData_sorted_by_date
    (localeCompare : string -> string -> Z) (formatDate : string -> string)
    (history : list HistoryRow) :
  (forall a b, (localeCompare a b <= 0)%Z \/ (localeCompare b a <= 0)%Z) ->
  let sorted := sorted_history localeCompare history in
  chartData localeCompare formatDate history
  = map (fun entry => (formatDate (row_balance_date entry), row_balance entry)) sorted
  /\ Permutation sorted history
  /\ Sorted (fun a b => (localeCompare (row_balance_date a) (row_balance_date b) <= 0)%Z)
            sorted
  /\ forall d,
       filter (fun e => String.eqb (row_balance_date e) d) sorted
       = filter (fun e => String.eqb (row_balance_date e) d) history.
Proof.
  intros Htotal sorted.
  assert (Hle : forall x y, date_le localeCompare x y = true
                            \/ date_le localeCompare y x = true).
  { intros x y. unfold date_le.
    destruct (Htotal (row_balance_date x) (row_balance_date y)) as [H | H];
      [left | right]; apply Z.leb_le; exact H. }
  split; [reflexivity |]. split; [apply sort_by_perm |]. split.
  - pose proof (sort_by_sorted (date_le localeCompare) Hle history) as Hs.
    fold (sorted_history localeCompare history) in Hs. fold sorted in Hs.
    induction Hs as [| x l Hl IH Hhd]; constructor; [exact IH |].
    destruct Hhd as [| y l' Hxy]; constructor.
    unfold date_le in Hxy. apply Z.leb_le. exact Hxy.
  - intros d. apply sort_by_stable.
    intros a b Ha Hb. apply String.eqb_eq in Ha, Hb. unfold date_le.
    rewrite Ha, Hb. apply Z.leb_le. destruct (Htotal d d); assumption.
Qed.

(** ** Editing an expense *)

Lemma round2_same_amount (a o : Q) :
  a == o -> strict_eq (round2 (Fin a - Fin o)%js) (int 0) = true.
Proof.
  intros H. cbn [Js.sub Js.neg Js.add]. rewrite round2_Fin.
  assert (E : Qfloor ((a + - o) * inject_Z 100 + (1 # 2)) = 0%Z).
  { rewrite (Qfloor_comp _ (1 # 2)); [reflexivity |]. rewrite H. ring. }
  rewrite E. reflexivity.
Qed.

Lemma round2_cents_difference (n o : Z) :
  round2 (cents n - cents o)%js = Fin (inject_Z (n - o) / inject_Z 100).
Proof.
  cbn [Js.sub Js.neg Js.add cents]. rewrite round2_Fin.
  assert (E : Qfloor (((n # 100) + - (o # 100)) * inject_Z 100 + (1 # 2)) = (n - o)%Z).
  { transitivity (Qfloor (((n - o) # 100) * inject_Z 100 + (1 # 2)));
      [| apply Qfloor_cents].
    apply Qfloor_comp.
    unfold Qeq, Qplus, Qmult, Qopp, inject_Z. simpl. lia. }
  rewrite E. reflexivity.
Qed.

Lemma fails_at_after_expenses (n : nat) (s : Supabase) (d : Database) :
  fails_at n {| db := d; outcomes := List.tl (outcomes s); writes := writes s |}
  = fails_at (S n) s.
Proof. unfold fails_at. cbn [outcomes]. destruct (outcomes s); destruct n; reflexivity. Qed.

(** An edit that changes no balance: an amount that is [0], [NaN] or below
    zero is turned down before anything is sent; if the update of the
    expense fails, nothing is posted; and if the amount is the one the
    expense had, the update is the only request sent. *)
Theorem expense_edit_without_posting
    (editExpense : Expense) (editAmount : number) (editCategory : string)
    (expenses : list Expense) (accounts : list AccountOption) (s : Supabase) :
  let r := handleEdit (Some editExpense) editAmount editCategory expenses accounts s in
  (negb (truthy editAmount) || le editAmount (int 0) = true ->
     r = ((Some (toast_error "Enter a valid amount"), expenses), s))
  /\ (negb (truthy editAmount) || le editAmount (int 0) = false ->
      fails_at 0 s = true ->
      r = ((Some (toast_error "Failed to update"), expenses), advance s))
  /\ (forall a o : Q,
        editAmount = Fin a -> expense_amount editExpense = Fin o -> a == o -> 0 < a ->
        fails_at 0 s = false ->
        fst (fst r) = Some (toast_success "Expense updated")
        /\ accounts_tbl (db (snd r)) = accounts_tbl (db s)
        /\ history_tbl (db (snd r)) = history_tbl (db s)
        /\ outcomes (snd r) = List.tl (outcomes s)).
Proof.
  intros r. unfold r, handleEdit, bind. split; [| split].
  - intros H. rewrite H. reflexivity.
  - intros H H0. rewrite H. unfold update_expense, expenses_command.
    rewrite H0. reflexivity.
  - intros a o Ha Ho Hao Hpos H0. subst editAmount.
    assert (Hvalid : negb (truthy (Fin a)) || le (Fin a) (int 0) = false).
    { apply orb_false_iff. split.
      - cbn [truthy]. rewrite negb_involutive. apply not_true_is_false.
        intros H. apply Qeq_bool_iff in H. lra.
      - cbn [le int]. apply not_true_is_false. intros H.
        apply Qle_bool_iff in H. change (inject_Z 0) with 0 in H. lra. }
    rewrite Hvalid. unfold update_expense, expenses_command. rewrite H0.
    cbn [is_error]. unfold edit_posting. rewrite Ho.
    change (Math_round ((Fin a - Fin o) * int 100) / int 100)%js
      with (round2 (Fin a - Fin o)%js).
    rewrite (round2_same_amount a o Hao). cbn [negb].
    destruct (expense_account_id editExpense) as [linked |];
      [rewrite andb_false_r |]; cbn [ret fst snd db with_expenses accounts_tbl
                                       history_tbl outcomes];
      repeat split.
Qed.

Lemma neg_proper (x y : number) : x =n= y -> neg x =n= neg y.
Proof.
  destruct x, y; try contradiction; intros H; try exact I.
  cbv [num_eq Js.neg] in *. rewrite H. reflexivity.
Qed.

Lemma delta_proper (x y : number) (accountType : AccountType) (operation : Operation) :
  x =n= y -> delta x accountType operation =n= delta y accountType operation.
Proof.
  intros H. destruct accountType, operation; cbn [delta];
    first [exact H | apply neg_proper; exact H].
Qed.

Lemma abs_cents_difference (d : Z) :
  Math_abs (Fin (inject_Z d / inject_Z 100)) =n= cents (Z.abs d).
Proof.
  cbn [Math_abs]. cbv [num_eq cents].
  assert (E : inject_Z d / inject_Z 100 == d # 100)
    by (unfold Qeq, Qdiv, Qmult, Qinv, inject_Z; simpl; lia).
  rewrite E. unfold Qabs. reflexivity.
Qed.

(** The posted balance for a whole number of hundredths on both sides. *)
Lemma posted_cents (b m : Z) (accountType : AccountType) (operation : Operation)
    (x : number) :
  x =n= cents m ->
  round2 (cents b + delta x accountType operation)%js
  =n= cents (match accountType, operation with
             | credit_card, op_add | bank_account, op_remove => b + m
             | credit_card, op_remove | bank_account, op_add => b - m
             end).
Proof.
  intros Hx.
  rewrite (round2_proper _ (cents b + delta (cents m) accountType operation)%js)
    by (apply add_proper; [reflexivity | apply delta_proper; exact Hx]).
  destruct accountType, operation; cbn [delta]; rewrite ?neg_cents;
    rewrite (round2_proper _ _ (add_cents _ _)); rewrite round2_cents;
    apply num_eq_refl.
Qed.

(** An edit of the amount of an expense, old and new amount and the
    balance being whole numbers of hundredths, the linked account being
    read and every request going through: the balance of the linked account
    moves by the difference of the two amounts, down for a bank account and
    up for a credit card. *)
Theorem expense_edit_moves_balance_by_difference
    (editExpense : Expense) (editCategory : string) (expenses : list Expense)
    (accounts : list AccountOption) (s : Supabase)
    (linked : string) (acct : AccountOption) (a : Account) (b n o : Z) :
  expense_amount editExpense = cents o ->
  expense_account_id editExpense = Some linked ->
  truthy_string linked = true ->
  find (fun x => String.eqb (option_id x) linked) accounts = Some acct ->
  filter (has_id (option_id acct)) (accounts_tbl (db s)) = [a] ->
  current_balance a = cents b ->
  (0 < n)%Z -> n <> o ->
  no_failure 4 s ->
  let r := handleEdit (Some editExpense) (cents n) editCategory expenses accounts s in
  exists v : number,
    db_balance (db (snd r)) (option_id acct) = Some v
    /\ v =n= cents (match option_account_type acct with
                    | bank_account => b - (n - o)
                    | credit_card => b + (n - o)
                    end).
Proof.
  intros Ho Hl Ht Hacct Hrow Hb Hn Hno Hok r.
  assert (H0 : fails_at 0 s = false) by (apply Hok; lia).
  assert (Hvalid : negb (truthy (cents n)) || le (cents n) (int 0) = false).
  { apply orb_false_iff. split.
    - cbn [truthy cents]. rewrite negb_involutive. apply not_true_is_false.
      intros H. apply Qeq_bool_iff in H. unfold Qeq in H. simpl in H. lia.
    - cbn [le cents int]. apply not_true_is_false. intros H.
      apply Qle_bool_iff in H. unfold Qle in H. simpl in H. lia. }
  unfold r, handleEdit, bind. rewrite Hvalid.
  unfold update_expense, expenses_command. rewrite H0. cbn [is_error].
  set (s1 := {| db := _; outcomes := _; writes := _ |}).
  unfold edit_posting. rewrite Ho, Hl, Ht.
  change (Math_round ((cents n - cents o) * int 100) / int 100)%js
    with (round2 (cents n - cents o)%js).
  rewrite round2_cents_difference.
  set (D := Fin (inject_Z (n - o) / inject_Z 100)).
  assert (Hnz : strict_eq D (int 0) = false).
  { unfold D. cbn [strict_eq int]. apply not_true_is_false. intros H.
    apply Qeq_bool_iff in H. unfold Qeq, Qdiv, Qmult, Qinv, inject_Z in H.
    simpl in H. lia. }
  rewrite Hnz. cbn [negb andb]. rewrite Hacct.
  assert (Hrow1 : filter (has_id (option_id acct)) (accounts_tbl (db s1)) = [a])
    by exact Hrow.
  assert (Hok1 : no_failure 3 s1).
  { intros i Hi. unfold s1. rewrite fails_at_after_expenses. apply Hok. lia. }
  set (op := if gt D (int 0) then op_add else op_remove).
  pose proof (updateAccountBalance_ok s1 (option_id acct)
                (expense_user_id editExpense) a (Math_abs D)
                (option_account_type acct) op
                (Some ("Expense edited: " ++ editCategory)%string) Hrow1 Hok1) as E.
  cbv zeta in E. rewrite E. cbn [snd ret].
  exists (round2 (current_balance a
                  + delta (Math_abs D) (option_account_type acct) op)%js).
  split.
  - unfold db_balance. cbn [db done with_history with_accounts accounts_tbl].
    rewrite find_set_balance_same.
    rewrite (filter_single_find _ _ _ Hrow1). reflexivity.
  - rewrite Hb.
    eapply num_eq_trans;
      [exact (posted_cents b (Z.abs (n - o)) (option_account_type acct) op
                (Math_abs D) (abs_cents_difference (n - o))) |].
    assert (Hgt : gt D (int 0) = true <-> (0 < n - o)%Z).
    { unfold D, int. rewrite gt_Fin. unfold Qlt, Qdiv, Qmult, Qinv, inject_Z.
      simpl. lia. }
    unfold op. destruct (gt D (int 0)) eqn:G.
    + assert (0 < n - o)%Z by (apply Hgt; reflexivity).
      replace (Z.abs (n - o)) with (n - o)%Z by lia.
      destruct (option_account_type acct); apply num_eq_refl.
    + assert (~ (0 < n - o)%Z) by (intros H; apply Hgt in H; discriminate).
      replace (Z.abs (n - o)) with (- (n - o))%Z by lia.
      destruct (option_account_type acct);
        [replace (b + - (n - o))%Z with (b - (n - o))%Z by lia
        | replace (b - - (n - o))%Z with (b + (n - o))%Z by lia];
        apply num_eq_refl.
Qed.

(** ** Deleting an expense *)

(** Deleting an expense that is linked to an account, amount and balance
    being whole numbers of hundredths: if the deletion fails, nothing else
    is sent and the expense stays on display; if every request goes through
    and the account is read, the expense is gone and the balance of the
    account is back up by the amount for a bank account and down by it for
    a credit card. *)
Theorem expense_deletion_reverts_balance
    (deleteId : string) (expenses : list Expense) (accounts : list AccountOption)
    (e : Expense) (linked : string) (acct : AccountOption) (s : Supabase)
    (a : Account) (b m : Z) :
  find (fun x => String.eqb (expense_id x) deleteId) expenses = Some e ->
  expense_account_id e = Some linked ->
  truthy_string linked = true ->
  find (fun x => String.eqb (option_id x) linked) accounts = Some acct ->
  expense_amount e = cents m ->
  filter (has_id (option_id acct)) (accounts_tbl (db s)) = [a] ->
  current_balance a = cents b ->
  let r := handleDelete (Some deleteId) expenses accounts s in
  (fails_at 0 s = true ->
     r = ((Some (toast_error "Failed to delete expense"), expenses), advance s))
  /\ (no_failure 4 s ->
      fst (fst r) = Some (toast_success "Expense deleted")
      /\ snd (fst r)
         = filter (fun x => negb (String.eqb (expense_id x) deleteId)) expenses
      /\ expenses_tbl (db (snd r))
         = filter (fun x => negb (String.eqb (expense_id x) deleteId))
                  (expenses_tbl (db s))
      /\ exists v : number,
           db_balance (db (snd r)) (option_id acct) = Some v
           /\ v =n= cents (match option_account_type acct with
                           | bank_account => b + m
                           | credit_card => b - m
                           end)).
Proof.
  intros He Hl Ht Hacct Hm Hrow Hb r. unfold r, handleDelete, bind, delete_expense.
  rewrite He. split.
  - intros H0. rewrite (command_fails _ _ _ s H0). reflexivity.
  - intros Hok.
    assert (H0 : fails_at 0 s = false) by (apply Hok; lia).
    rewrite (command_ok _ _ _ s H0). cbn [is_error].
    rewrite Hl, Ht, Hacct.
    set (s1 := done s _ _).
    assert (Hrow1 : filter (has_id (option_id acct)) (accounts_tbl (db s1)) = [a])
      by exact Hrow.
    assert (Hok1 : no_failure 3 s1).
    { intros i Hi. unfold s1. rewrite fails_at_done. apply Hok. lia. }
    pose proof (updateAccountBalance_ok s1 (option_id acct) (expense_user_id e) a
                  (expense_amount e) (option_account_type acct) op_remove
                  (Some ("Expense deleted: " ++ category e)%string) Hrow1 Hok1) as E.
    cbv zeta in E. rewrite E. cbn [fst snd ret].
    split; [reflexivity |]. split; [reflexivity |]. split; [reflexivity |].
    exists (round2 (current_balance a
                    + delta (expense_amount e) (option_account_type acct) op_remove)%js).
    split.
    + unfold db_balance. cbn [db done with_history with_accounts accounts_tbl].
      rewrite find_set_balance_same, (filter_single_find _ _ _ Hrow1). reflexivity.
    + rewrite Hb, Hm.
      eapply num_eq_trans;
        [exact (posted_cents b m (option_account_type acct) op_remove (cents m)
                  (num_eq_refl _)) |].
      destruct (option_account_type acct); apply num_eq_refl.
Qed.

(** * Further worked instances *)

Import Cases.
Local Open Scope string_scope.

Lemma totals_unconverted_when_provider_down_witness :
  exists rates : Rates,
    fst (getExchangeRates unavailable 0 (Some "PHP") None) = Returned rates
    /\ sumConverted invoices rates
       =n= fold_left (fun sum item => (sum + item_amount item)%js) invoices (int 0).
Proof.
  apply (totals_unconverted_when_provider_down unavailable 0 "PHP" None 503
           InvalidJson invoices).
  - reflexivity.
  - reflexivity.
  - repeat constructor.
Defined.

Lemma table_totals_match_dashboard_witness :
  totalBankBalance all_accounts peso_rates
  =n= dashboardBankBalance (activeAccounts all_accounts) peso_rates
  /\ totalCreditUsed all_accounts peso_rates
     =n= totalCreditOwed (activeAccounts all_accounts) peso_rates.
Proof.
  apply (table_totals_match_dashboard all_accounts peso_rates).
  intros a Ha. cbn in Ha.
  repeat (destruct Ha as [<- | Ha]; [reflexivity |]). contradiction.
Defined.

Lemma NoDup_all_accounts : NoDup (map id all_accounts).
Proof.
  cbn. repeat constructor; cbn; intuition discriminate.
Defined.

Lemma getExchangeRates_cache_window_witness :
  getExchangeRates unreachable 1000 (Some "PHP")
    (snd (getExchangeRates healthy 0 (Some "PHP") None))
  = (Returned [("USD", Fin (2 # 100)); ("PHP", int 1)],
     snd (getExchangeRates healthy 0 (Some "PHP") None))
  /\ fst (getExchangeRates unreachable CACHE_TTL (Some "PHP")
            (snd (getExchangeRates healthy 0 (Some "PHP") None)))
     = Thrown.
Proof.
  destruct (getExchangeRates_cache_window healthy unreachable 0 1000 "PHP" None
              (snd (getExchangeRates healthy 0 (Some "PHP") None))
              [("USD", Fin (2 # 100)); ("PHP", int 1)] eq_refl eq_refl)
    as [Hin _].
  destruct (getExchangeRates_cache_window healthy unreachable 0 CACHE_TTL "PHP" None
              (snd (getExchangeRates healthy 0 (Some "PHP") None))
              [("USD", Fin (2 # 100)); ("PHP", int 1)] eq_refl eq_refl)
    as [_ Hout].
  split.
  - apply Hin. reflexivity.
  - destruct Hout as [Hfst _]; [vm_compute; discriminate |]. exact Hfst.
Defined.

Lemma failed_fetch_is_cached_witness :
  fst (getExchangeRates healthy 1000 (Some "PHP")
         (snd (getExchangeRates unavailable 0 (Some "PHP") None)))
  = Returned [("PHP", int 1)].
Proof.
  apply (failed_fetch_is_cached unavailable healthy 0 1000 "PHP" None 503 InvalidJson).
  - discriminate.
  - reflexivity.
  - reflexivity.
  - reflexivity.
Defined.

Lemma cache_holds_one_base_witness :
  cached_rates 1 "PHP"
    (snd (getExchangeRates healthy 1 (Some "USD")
            (snd (getExchangeRates healthy 0 (Some "PHP") None))))
  = None.
Proof.
  apply (cache_holds_one_base healthy 1 1 "PHP" "USD"
           (snd (getExchangeRates healthy 0 (Some "PHP") None)) _
           [("USD", int 1)]).
  - discriminate.
  - reflexivity.
  - reflexivity.
Defined.

Lemma getExchangeRates_keeps_identity_witness :
  cache_has_identity (snd (getExchangeRates healthy 0 (Some "PHP") None))
  /\ forall r, fst (getExchangeRates healthy 0 (Some "PHP") None) = Returned r ->
       rates_get r "PHP" = Some (int 1)
       /\ forall x, convertAmount x "PHP" r =n= x.
Proof.
  apply (getExchangeRates_keeps_identity healthy 0 "PHP" None).
  - discriminate.
  - exact I.
Defined.

Lemma getExchangeRates_fetched_rates_witness :
  exists r,
    getExchangeRates healthy 0 (Some "PHP") None
    = (Returned r, Some {| base := "PHP"; rates := r; fetchedAt := 0 |})
    /\ rates_get r "PHP" = Some (int 1)
    /\ forall k, k <> "PHP" -> rates_get r k = rates_get [("USD", Fin (2 # 100))] k.
Proof.
  apply (getExchangeRates_fetched_rates healthy 0 "PHP" None 200
           [("USD", Fin (2 # 100))]).
  - discriminate.
  - reflexivity.
  - reflexivity.
Defined.

Lemma offered_destination_is_accepted_witness :
  check_transfer (choose "acc-3" (cents 5000)
                    (openTransfer "2026-01-15" (Some "acc-5") Sample.table))
  = Accepted dormant checking (cents 5000)
  /\ status checking = active /\ currency checking = currency dormant
  /\ id checking <> id dormant.
Proof.
  apply (offered_destination_is_accepted
           (openTransfer "2026-01-15" (Some "acc-5") Sample.table)
           dormant checking (cents 5000)).
  - exact NoDup_all_accounts.
  - reflexivity.
  - discriminate.
  - vm_compute. right. right. left. reflexivity.
  - discriminate.
  - reflexivity.
  - reflexivity.
Defined.

Lemma transfer_ignores_insert_failures_witness :
  let r := handleTransfer "2026-01-15" (dialog "acc-1" "acc-3" (cents 5000))
                          (backend [false; false; true; false]) in
  fst (fst r) = Some (toast_success "Transferred")
  /\ history_tbl (db (snd r)) = []
  /\ List.length (transfers_tbl (db (snd r))) = 1%nat.
Proof.
  cbv zeta.
  destruct (transfer_ignores_insert_failures "2026-01-15"
              (dialog "acc-1" "acc-3" (cents 5000)) savings checking (cents 5000)
              (backend [false; false; true; false]) eq_refl eq_refl eq_refl)
    as (Htoast & _ & Hhist & Htr).
  split; [exact Htoast |]. split; [exact Hhist |].
  rewrite Htr. reflexivity.
Defined.

Lemma posting_writes_are_independent_witness :
  let d' := db (snd (updateAccountBalance "acc-1" "user-1" (cents 5000) bank_account
                                          op_add None (backend [false; true; false]))) in
  accounts_tbl d' = all_accounts
  /\ List.length (history_tbl d') = 1%nat.
Proof.
  cbv zeta.
  destruct (posting_writes_are_independent (backend [false; true; false]) "acc-1"
              "user-1" savings (cents 5000) bank_account op_add None
              eq_refl eq_refl)
    as (Hacc & Hhist).
  split; [exact Hacc |]. rewrite Hhist. reflexivity.
Defined.

Lemma manual_correction_failures_witness :
  handleBalanceUpdate "2026-01-15" savings "user-1" NaN "" (backend [])
  = ((toast_error "Enter a valid balance", cents 100000), backend [])
  /\ db (snd (handleBalanceUpdate "2026-01-15" savings "user-1" (cents 120000) ""
                                  (backend [true])))
     = database
  /\ (fst (handleBalanceUpdate "2026-01-15" savings "user-1" (cents 120000) ""
                               (backend [false; true]))
      = (toast_error "Balance updated but history failed", cents 120000)
      /\ history_tbl
           (db (snd (handleBalanceUpdate "2026-01-15" savings "user-1"
                                         (cents 120000) "" (backend [false; true]))))
         = []).
Proof.
  split; [| split].
  - destruct (manual_correction_failures "2026-01-15" savings "user-1" NaN ""
                (backend [])) as (Hnan & _).
    exact (Hnan eq_refl).
  - destruct (manual_correction_failures "2026-01-15" savings "user-1"
                (cents 120000) "" (backend [true])) as (_ & Hfail & _).
    rewrite (Hfail eq_refl eq_refl). reflexivity.
  - destruct (manual_correction_failures "2026-01-15" savings "user-1"
                (cents 120000) "" (backend [false; true])) as (_ & _ & Hhist).
    destruct (Hhist eq_refl eq_refl eq_refl) as (Hfst & _ & Hh).
    split; [exact Hfst | exact Hh].
Defined.

Lemma account_creation_opens_history_witness :
  let r := onSubmit "2026-01-15" "acc-7" None brokerage "" (backend []) in
  fst r = toast_success "Account created"
  /\ db_balance (db (snd r)) "acc-7" = Some (cents 70000)
  /\ exists e, history_of (db (snd r)) "acc-7" = [e]
               /\ balance e = cents 70000
               /\ note e = Some "Opening balance".
Proof.
  cbv zeta.
  destruct (account_creation_opens_history "2026-01-15" "acc-7" brokerage ""
              (backend []) eq_refl eq_refl) as (_ & Hok).
  exact (Hok (no_failure_reliable 2 database [])).
Defined.

Lemma realtime_keeps_ids_distinct_witness :
  NoDup (map id (onInsert brokerage all_accounts))
  /\ NoDup (map id (onUpdate (with_balance savings (cents 1)) all_accounts))
  /\ NoDup (map id (onDelete savings all_accounts)).
Proof.
  destruct (realtime_keeps_ids_distinct brokerage all_accounts NoDup_all_accounts)
    as (Hi & _).
  destruct (realtime_keeps_ids_distinct (with_balance savings (cents 1)) all_accounts
              NoDup_all_accounts) as (_ & Hu & _).
  destruct (realtime_keeps_ids_distinct savings all_accounts NoDup_all_accounts)
    as (_ & _ & Hd & _).
  split; [exact Hi |]. split; [exact Hu | exact Hd].
Defined.

Lemma realtime_insert_delete_round_trip_witness :
  onDelete brokerage (onInsert brokerage all_accounts) = all_accounts.
Proof.
  destruct (realtime_insert_delete_round_trip brokerage all_accounts) as (_ & H).
  apply H. cbn. intuition discriminate.
Defined.

Lemma trend_never_NaN_and_signed_witness :
  gt (trend (Fin 120) (Fin 100)) (int 0) = true <-> 100 < 120.
Proof.
  destruct (trend_never_NaN_and_signed 120 100) as (_ & Hsign & _).
  apply Hsign. reflexivity.
Defined.

Lemma revenuePercent_bounds_witness :
  exists q : Q, revenuePercent (Fin 300) (Fin 100) = Fin q /\ 0 <= q /\ q <= 100.
Proof.
  apply (revenuePercent_bounds 300 100).
  - discriminate.
  - discriminate.
Defined.

Lemma table_correction_in_sync_witness :
  let r := handleBalanceUpdate_table "2026-01-15" all_accounts "user-1" (Some savings)
                                     (cents 120000) "" (backend [false; true]) in
  accounts_tbl (db (snd r)) = snd (fst r)
  /\ snd (fst r) = set_balance_rows "acc-1" (cents 120000) all_accounts
  /\ history_tbl (db (snd r)) = [].
Proof.
  cbv zeta.
  destruct (table_correction_in_sync "2026-01-15" all_accounts "user-1" savings
              (cents 120000) "" (backend [false; true]) eq_refl
              (or_intror (ex_intro _ 120000%Z eq_refl)))
    as (Hsync & Hok & _).
  destruct (Hok eq_refl eq_refl) as (Hrows & Hhist).
  split; [exact Hsync |]. split; [exact Hrows | exact Hhist].
Defined.

(** The comparison by codes puts any two strings in order one way or the
    other. *)
Lemma compare_codes_total (a b : string) :
  (compare_codes a b <= 0)%Z \/ (compare_codes b a <= 0)%Z.
Proof.
  unfold compare_codes. rewrite (String.compare_antisym a b).
  destruct (String.compare b a); cbn [CompOpp]; lia.
Defined.

Lemma chartData_sorted_by_date_witness :
  Permutation (sorted_history compare_codes history) history
  /\ filter (fun e => String.eqb (row_balance_date e) "2026-01-15")
            (sorted_history compare_codes history)
     = filter (fun e => String.eqb (row_balance_date e) "2026-01-15") history.
Proof.
  destruct (chartData_sorted_by_date compare_codes (fun d => d) history
              compare_codes_total) as (_ & Hperm & _ & Hstable).
  split; [exact Hperm | exact (Hstable "2026-01-15")].
Defined.

Lemma expense_edit_without_posting_witness :
  handleEdit (Some lunch) (int 0) "Meals" [lunch] options (backend [])
  = ((Some (toast_error "Enter a valid amount"), [lunch]), backend [])
  /\ handleEdit (Some lunch) (cents 50000) "Meals" [lunch] options (backend [true])
     = ((Some (toast_error "Failed to update"), [lunch]), advance (backend [true]))
  /\ accounts_tbl
       (db (snd (handleEdit (Some lunch) (cents 45000) "Food" [lunch] options
                            (backend []))))
     = all_accounts.
Proof.
  split; [| split].
  - destruct (expense_edit_without_posting lunch (int 0) "Meals" [lunch] options
                (backend [])) as (H & _).
    exact (H eq_refl).
  - destruct (expense_edit_without_posting lunch (cents 50000) "Meals" [lunch] options
                (backend [true])) as (_ & H & _).
    exact (H eq_refl eq_refl).
  - destruct (expense_edit_without_posting lunch (cents 45000) "Food" [lunch] options
                (backend [])) as (_ & _ & H).
    destruct (H (45000 # 100) (45000 # 100) eq_refl eq_refl (Qeq_refl _) eq_refl eq_refl)
      as (_ & Hacc & _).
    exact Hacc.
Defined.

Lemma expense_edit_moves_balance_by_difference_witness :
  exists v : number,
    db_balance
      (db (snd (handleEdit (Some lunch) (cents 50000) "Meals" [lunch] options
                           (backend []))))
      "acc-1" = Some v
    /\ v =n= cents 95000.
Proof.
  apply (expense_edit_moves_balance_by_difference lunch "Meals" [lunch] options
           (backend []) "acc-1" (mkAccountOption "acc-1" "Savings" bank_account "PHP")
           savings 100000 50000 45000).
  - reflexivity.
  - reflexivity.
  - reflexivity.
  - reflexivity.
  - reflexivity.
  - reflexivity.
  - lia.
  - lia.
  - apply no_failure_reliable.
Defined.

Lemma expense_deletion_reverts_balance_witness :
  let r := handleDelete (Some "exp-1") [lunch] options (backend []) in
  fst (fst r) = Some (toast_success "Expense deleted")
  /\ snd (fst r) = []
  /\ exists v : number,
       db_balance (db (snd r)) "acc-1" = Some v /\ v =n= cents 145000.
Proof.
  cbv zeta.
  destruct (expense_deletion_reverts_balance "exp-1" [lunch] options lunch "acc-1"
              (mkAccountOption "acc-1" "Savings" bank_account "PHP") (backend [])
              savings 100000 45000 eq_refl eq_refl eq_refl eq_refl eq_refl eq_refl
              eq_refl) as (_ & Hok).
  destruct (Hok (no_failure_reliable 4 database [])) as (Htoast & Hrows & _ & Hv).
  split; [exact Htoast |]. split; [exact Hrows | exact Hv].
Defined.

Lemma account_edit_sets_balance_without_history_witness :
  let r := onSubmit "2026-01-15" "acc-7" (Some savings)
                    (with_balance savings (cents 250000)) "" (backend []) in
  fst r = toast_success "Account updated"
  /\ db_balance (db (snd r)) "acc-1" = Some (cents 250000)
  /\ history_tbl (db (snd r)) = [].
Proof.
  apply (account_edit_sets_balance_without_history "2026-01-15" "acc-7" savings
           (with_balance savings (cents 250000)) "" (backend []) savings).
  - reflexivity.
  - reflexivity.
Defined.

Lemma expense_deletion_succeeds_without_posting_witness :
  let r := handleDelete (Some "exp-1") [lunch] options (backend [false; true]) in
  fst (fst r) = Some (toast_success "Expense deleted")
  /\ accounts_tbl (db (snd r)) = all_accounts
  /\ history_tbl (db (snd r)) = [].
Proof.
  cbv zeta.
  destruct (expense_deletion_succeeds_without_posting "exp-1" [lunch] options lunch
              "acc-1" (mkAccountOption "acc-1" "Savings" bank_account "PHP")
              (backend [false; true]) eq_refl eq_refl eq_refl eq_refl eq_refl
              (or_introl eq_refl)) as (Htoast & Hacc & Hhist & _).
  split; [exact Htoast |]. split; [exact Hacc | exact Hhist].
Defined.
